(** * LM75 I2C temperature sensor driver (PythonLibraries/LM75.py)

    A shallow embedding of the [LM75] class and theorems about its register
    accessors, its configuration helpers and its temperature decoding.

    Python integers are unbounded and are modelled by [Z]; the bit operators
    [&], [|], [~], [<<], [>>] are [Z.land], [Z.lor], [Z.lnot], [Z.shiftl],
    [Z.shiftr] (Python's operators work on the infinite two's complement
    representation, as Rocq's do).  The values the getters return are Python
    floats of the form [k/2] with [|k| < 2^9]; they and every intermediate
    result are exactly representable in binary64, so the float arithmetic of
    the source is exact and is modelled by rational arithmetic on [Q]
    (the section on binary64 below checks this against the floats
    themselves). *)

From Stdlib Require Import ZArith QArith Qround Qabs Lia String List.
From Stdlib Require Import Floats Uint63.
From stdpp Require Import gmap strings list pretty.

Local Open Scope Z_scope.

(** ** The SMBus transport

    [smbus] is an external module.  The world it acts on is modelled by a
    register file indexed by (bus number, device address, register index),
    the log of the transactions requested on the bus, and the text printed
    so far.  A transaction addressed to a register that is not in the file
    (no such bus, no device answering at that address) raises [IOError]
    after being logged; a write stores the value it was given and a read
    returns the stored value. *)

Inductive event : Type :=
  | EvReadByte  (bus addr cmd : Z)
  | EvReadWord  (bus addr cmd : Z)
  | EvWriteByte (bus addr cmd val : Z)
  | EvWriteWord (bus addr cmd val : Z).

Record world : Type := World {
  regs   : gmap (Z * Z * Z) Z;
  trace  : list event;
  stdout : list string
}.

Inductive exn : Type := IOError.

Inductive result (A : Type) : Type :=
  | Ok (a : A) (w : world)
  | Raise (e : exn) (w : world).
Arguments Ok {A} a w.
Arguments Raise {A} e w.

(** Computations that read and change the world and may raise. *)
Definition M (A : Type) : Type := world -> result A.

#[export] Instance M_ret : MRet M := fun A a w => Ok a w.
#[export] Instance M_bind : MBind M := fun A B f m w =>
  match m w with
  | Ok a w' => f a w'
  | Raise e w' => Raise e w'
  end.

Definition log (e : event) (w : world) : world :=
  World (regs w) (trace w ++ [e]) (stdout w).

Definition store (k : Z * Z * Z) (v : Z) (w : world) : world :=
  World (<[k := v]> (regs w)) (trace w) (stdout w).

Definition print (s : string) : M unit := fun w =>
  Ok tt (World (regs w) (trace w) (stdout w ++ [s])).

Definition bus_read (e : event) (k : Z * Z * Z) : M Z := fun w =>
  match regs w !! k with
  | Some v => Ok v (log e w)
  | None => Raise IOError (log e w)
  end.

Definition bus_write (e : event) (k : Z * Z * Z) (v : Z) : M unit := fun w =>
  match regs w !! k with
  | Some _ => Ok tt (store k v (log e w))
  | None => Raise IOError (log e w)
  end.

Module smbus.

(** [smbus.SMBus(n)]: a handle on the bus number [n]. *)
Record SMBus : Type := mkSMBus { busno : Z }.

Definition read_byte_data (b : SMBus) (addr cmd : Z) : M Z :=
  bus_read (EvReadByte (busno b) addr cmd) (busno b, addr, cmd).

Definition read_word_data (b : SMBus) (addr cmd : Z) : M Z :=
  bus_read (EvReadWord (busno b) addr cmd) (busno b, addr, cmd).

Definition write_byte_data (b : SMBus) (addr cmd val : Z) : M unit :=
  bus_write (EvWriteByte (busno b) addr cmd val) (busno b, addr, cmd) val.

Definition write_word_data (b : SMBus) (addr cmd val : Z) : M unit :=
  bus_write (EvWriteWord (busno b) addr cmd val) (busno b, addr, cmd) val.

End smbus.

(** ** The class [LM75] *)

Module LM75.

Import smbus.

(** The instance attributes set by [__init__]. *)
Record self_t : Type := mkLM75 { bus : SMBus; address : Z }.

(** Class attributes. *)
Definition __TEMP  : Z := 0x00.
Definition _CONFIG : Z := 0x01.
Definition _THYST  : Z := 0x02.
Definition _TSET   : Z := 0x03.

(** *** System register writes *)

Definition setConf (self : self_t) (conf : Z) : M unit :=
  write_byte_data (bus self) (address self) _CONFIG conf.

Definition setThys (self : self_t) (thys : Z) : M unit :=
  write_word_data (bus self) (address self) _THYST thys.

Definition setTset (self : self_t) (tos : Z) : M unit :=
  write_word_data (bus self) (address self) _TSET tos.

(** *** System register reads *)

Definition getConf (self : self_t) : M Z :=
  conf ← read_byte_data (bus self) (address self) _CONFIG;
  mret conf.

(** The arithmetic of [getTemp] on the word it has read
    ([dec], [temsign], [temp] of the source). *)
Definition getTemp_value (temp : Z) : Q :=
  let dec := Z.shiftr (Z.land temp 0x8000) 15 in
  let temsign := Z.land temp 0x0080 in
  let temp := Z.land temp 0x007F in
  (inject_Z ((-1) ^ temsign) * (inject_Z temp + 0.5 * inject_Z dec))%Q.

Definition getTemp (self : self_t) : M Q :=
  temp ← read_word_data (bus self) (address self) 0x00;
  mret (getTemp_value temp).

(** The arithmetic of [getThys] ([dec], [thyssign], [thys]). *)
Definition getThys_value (thys : Z) : Q :=
  let dec := Z.shiftr (Z.land thys 0x8000) 15 in
  let thyssign := Z.land thys 0x0080 in
  let thys := Z.land thys 0x007F in
  (inject_Z ((-1) ^ thyssign) * (inject_Z thys + 0.5 * inject_Z dec))%Q.

Definition getThys (self : self_t) : M Q :=
  thys ← read_word_data (bus self) (address self) _THYST;
  mret (getThys_value thys).

(** The arithmetic of [getTset] ([dec], [tossign], [tos]). *)
Definition getTset_value (tos : Z) : Q :=
  let dec := Z.shiftr (Z.land tos 0x8000) 15 in
  let tossign := Z.land tos 0x0080 in
  let tos := Z.land tos 0x007F in
  (inject_Z ((-1) ^ tossign) * (inject_Z tos + 0.5 * inject_Z dec))%Q.

Definition getTset (self : self_t) : M Q :=
  tos ← read_word_data (bus self) (address self) _TSET;
  mret (getTset_value tos).

(** *** Construction: [LM75(add, bus)], [bus] defaulting to 1 *)

Definition init (add : Z) (bus : Z) : M self_t :=
  let self := mkLM75 (mkSMBus bus) add in
  setConf self 0x00;;
  setThys self 0x004B;;
  setTset self 0x0050;;
  mret self.

(** *** Configuration helpers *)

Definition setFaultQueue (self : self_t) (value : Z) : M bool :=
  if negb (bool_decide (value ∈ [0; 1; 2; 3])) then
    print "Error: Invalid fault queue value. Must be  0,1,2 or 3";;
    mret false
  else
    cfgVal ← getConf self;
    let cfgVal := Z.lor cfgVal (Z.shiftl value 3) in
    setConf self cfgVal;;
    mret true.

Definition setPolarity (self : self_t) (polarity : Z) : M unit :=
  cfgVal ← getConf self;
  let cfgVal :=
    if polarity =? 1 then Z.lor cfgVal 0x04
    else Z.land cfgVal (Z.lnot 0x04) in
  setConf self cfgVal;;
  mret tt.

Definition comparator_mode (self : self_t) : M bool :=
  cfgVal ← getConf self;
  let cfgVal := Z.land cfgVal 0xFD in
  setConf self cfgVal;;
  mret true.

Definition interrupt_mode (self : self_t) : M bool :=
  cfgVal ← getConf self;
  let cfgVal := Z.lor cfgVal 0x02 in
  setConf self cfgVal;;
  mret true.

Definition wakeup (self : self_t) : M bool :=
  cfgVal ← getConf self;
  let cfgVal := Z.land cfgVal 0xFE in
  setConf self cfgVal;;
  mret true.

Definition shutdown (self : self_t) : M bool :=
  cfgVal ← getConf self;
  let cfgVal := Z.lor cfgVal 0x01 in
  setConf self cfgVal;;
  mret true.

End LM75.

(** ** The arithmetic of the getters on binary64

    The expression of [getTemp] evaluated with the machine's floats, to be
    compared with its evaluation on [Q]. *)

(** Python's conversion of an int to a float (exact below 2^53). *)
Definition float_of_int (z : Z) : float :=
  if z <? 0 then (- PrimFloat.of_uint63 (Uint63.of_Z (- z)))%float
  else PrimFloat.of_uint63 (Uint63.of_Z z).

Definition getTemp_value_binary64 (temp : Z) : float :=
  let dec := Z.shiftr (Z.land temp 0x8000) 15 in
  let temsign := Z.land temp 0x0080 in
  let temp := Z.land temp 0x007F in
  (float_of_int ((-1) ^ temsign)
   * (float_of_int temp + 0.5 * float_of_int dec))%float.

(** The rational a finite binary64 number denotes. *)
Definition Q_of_float (f : float) : option Q :=
  match Prim2SF f with
  | S754_zero _ => Some 0%Q
  | S754_finite s m e =>
      let v := (inject_Z (Zpos m) * Qpower 2 e)%Q in
      Some (if s then (- v)%Q else v)
  | _ => None
  end.

(** On the given sign mask, magnitude and half-degree flag, the float
    result is finite and denotes the rational result. *)
Definition binary64_agrees (temsign temp dec : Z) : bool :=
  match Q_of_float (float_of_int ((-1) ^ temsign)
                    * (float_of_int temp + 0.5 * float_of_int dec))%float with
  | Some q =>
      Qeq_bool q (inject_Z ((-1) ^ temsign)
                  * (inject_Z temp + 0.5 * inject_Z dec))%Q
  | None => false
  end.

(** ** The register format as the specification words it

    The specification describes the temperature registers as a 9-bit
    sign-magnitude number: bit 15 is the half-degree flag, bit 7 the sign
    flag, bits 0-6 the integer magnitude.  The driver has no encoder, and
    its decoding is the arithmetic of the getters above; the two
    definitions below follow the specification's sentences and are what the
    driver is compared with. *)

(** "Result = (sign flag ? -1 : +1) x (magnitude + 0.5 x dec)". *)
Definition decode_spec (w : Z) : Q :=
  let dec := Z.b2z (Z.testbit w 15) in
  let sign := Z.testbit w 7 in
  let magnitude := Z.land w 0x007F in
  ((if sign then -1 else 1) * (inject_Z magnitude + 0.5 * inject_Z dec))%Q.

(** The sign-magnitude encoding of a temperature [x]: the sign flag in
    bit 7, the integer part of [|x|] in bits 0-6 and the half degree in
    bit 15. *)
Definition encode_spec (x : Q) : Z :=
  let sign := if Qle_bool 0 x then 0 else 1 in
  let halves := Qfloor (2 * Qabs x) in
  let magnitude := halves / 2 in
  let dec := halves mod 2 in
  Z.lor (Z.lor (Z.shiftl dec 15) (Z.shiftl sign 7)) (Z.land magnitude 0x007F).

(** A temperature at a 0.5 degree step. *)
Definition half_step (x : Q) : Prop := exists k : Z, (x == k # 2)%Q.

(** A decoded value that lies in [0.0, 127.5] and is a multiple of 0.5. *)
Definition nonneg_half_steps (v : Q) : Prop :=
  (0 <= v <= 127.5)%Q /\ exists k : Z, (v == inject_Z k * 0.5)%Q.

(** Bits 3-4 of a configuration byte: the fault queue field. *)
Definition fault_queue_field (conf : Z) : Z := Z.land (Z.shiftr conf 3) 3.

(** A device answers on bus [b] at address [a] for register [r]. *)
Definition answers (b a : Z) (w : world) (r : Z) : bool :=
  match regs w !! (b, a, r) with Some _ => true | None => false end.

(** An LM75, with its four registers, answers on bus [b] at address [a]. *)
Definition present (b a : Z) (w : world) : bool :=
  forallb (answers b a w) [0x00; 0x01; 0x02; 0x03].

(** The world a completed construction [LM75(add, bus)] leaves behind. *)
Definition constructed (add bus : Z) (w : world) : world :=
  store (bus, add, 0x03) 0x0050 (log (EvWriteWord bus add 0x03 0x0050)
    (store (bus, add, 0x02) 0x004B (log (EvWriteWord bus add 0x02 0x004B)
      (store (bus, add, 0x01) 0x00 (log (EvWriteByte bus add 0x01 0x00) w))))).

(** A world with one LM75 at address 0x48 of bus 1, holding the given
    register contents. *)
Definition bench (temp conf thys tset : Z) : world :=
  World (list_to_map [((1, 0x48, 0x00), temp); ((1, 0x48, 0x01), conf);
                      ((1, 0x48, 0x02), thys); ((1, 0x48, 0x03), tset)])
        [] [].

Definition sensor : LM75.self_t := LM75.mkLM75 (smbus.mkSMBus 1) 0x48.

(** ** The demonstration routine [testSensor] *)

(** [time.sleep]: the world has no clock, and nothing in it changes while
    the caller waits. *)
Definition sleep (seconds : Z) : M unit := mret tt.

(** Python's [str] on a float that is a multiple of 0.5, which is all the
    getters return: the integer part followed by ".0" or ".5". *)
Definition str (x : Q) : string :=
  let n := Qfloor (Qabs x) in
  (if Qle_bool 0 x then "" else "-")
  +:+ pretty n
  +:+ (if Qeq_bool (Qabs x) (inject_Z n) then ".0" else ".5").

(** [for i in l: body(i)]. *)
Fixpoint for_in {A : Type} (l : list A) (body : A -> M unit) : M unit :=
  match l with
  | [] => mret tt
  | i :: l' => body i;; for_in l' body
  end.

(** [range(lo, hi)]. *)
Definition range (lo hi : Z) : list Z := seqZ lo (hi - lo).

Definition testSensor : M unit :=
  sensor ← LM75.init 0x48 1;
  print "Accessing LM75 at address ";;
  t ← LM75.getTemp sensor;
  print ("Temperature: " +:+ str t);;
  t ← LM75.getThys sensor;
  print ("Thys: " +:+ str t);;
  t ← LM75.getTset sensor;
  print ("Tset: " +:+ str t);;
  sleep 1;;
  print "Shutting down sensor";;
  LM75.shutdown sensor;;
  for_in (range 0 20) (fun i =>
    sleep 1;;
    t ← LM75.getTemp sensor;
    print ("Temperature while Shutdown: " +:+ str t));;
  print "Waking up sensor now";;
  LM75.wakeup sensor;;
  for_in (range 0 20) (fun i =>
    sleep 1;;
    t ← LM75.getTemp sensor;
    print ("Temperature while wakeup: " +:+ str t)).

(** ** Notions used to state what the accessors keep *)

(** The world a computation ends in, whether it returned or raised. *)
Definition world_of {A : Type} (r : result A) : world :=
  match r with
  | Ok _ w => w
  | Raise _ w => w
  end.




(** Whatever its outcome, a method leaves every register other than the
    configuration register of its own sensor as it was. *)
Definition only_touches_config {A : Type} (self : LM75.self_t) (m : M A)
  : Prop :=
  forall (w : world) (k : Z * Z * Z),
    k <> (smbus.busno (LM75.bus self), LM75.address self, 0x01) ->
    regs (world_of (m w)) !! k = regs w !! k.

(** The same sensor type at address 0x49, where the bench has no device. *)
Definition absent_sensor : LM75.self_t :=
  LM75.mkLM75 (smbus.mkSMBus 1) 0x49.

(** ** Bit-level facts about the masks of the driver *)

Section Masks.

Lemma land_pow2 (w n : Z) :
  0 <= n -> Z.land w (2 ^ n) = if Z.testbit w n then 2 ^ n else 0.
Proof.
  intros Hn. apply Z.bits_inj'. intros i Hi.
  rewrite Z.land_spec, Z.pow2_bits_eqb by lia.
  destruct (Z.eqb_spec n i) as [->|Hne].
  - destruct (Z.testbit w i); simpl.
    + rewrite Z.pow2_bits_eqb by lia. now rewrite Z.eqb_refl.
    + now rewrite Z.bits_0.
  - rewrite andb_false_r. destruct (Z.testbit w n).
    + rewrite Z.pow2_bits_eqb by lia. symmetry. now apply Z.eqb_neq.
    + now rewrite Z.bits_0.
Qed.

Lemma sign_mask (w : Z) :
  Z.land w 0x0080 = if Z.testbit w 7 then 128 else 0.
Proof. exact (land_pow2 w 7 ltac:(lia)). Qed.

Lemma sign_term (w : Z) : (-1) ^ Z.land w 0x0080 = 1.
Proof. rewrite sign_mask. now destruct (Z.testbit w 7). Qed.

Lemma dec_bit (w : Z) :
  Z.shiftr (Z.land w 0x8000) 15 = Z.b2z (Z.testbit w 15).
Proof.
  change 0x8000 with (2 ^ 15). rewrite land_pow2 by lia.
  now destruct (Z.testbit w 15).
Qed.

Lemma magnitude_range (w : Z) : 0 <= Z.land w 0x007F <= 127.
Proof.
  pose proof (Z.land_ones w 7 ltac:(lia)) as E.
  pose proof (Z.mod_pos_bound w (2 ^ 7) eq_refl) as H.
  change (Z.ones 7) with 127 in E. change (2 ^ 7) with 128 in *. lia.
Qed.

Lemma b2z_range (b : bool) : 0 <= Z.b2z b <= 1.
Proof. destruct b; simpl; lia. Qed.

End Masks.

(** ** The value computed by the getters *)

Section Decoding.

(** The getters return [magnitude + dec/2], whatever bit 7 is. *)
Lemma getTemp_value_halves (w : Z) :
  (LM75.getTemp_value w
   == (2 * Z.land w 0x007F + Z.b2z (Z.testbit w 15)) # 2)%Q.
Proof.
  unfold LM75.getTemp_value. cbv zeta.
  rewrite sign_term, dec_bit.
  generalize (Z.land w 0x007F) (Z.b2z (Z.testbit w 15)). intros m d.
  unfold Qeq. simpl. lia.
Qed.

Lemma getThys_value_eq (w : Z) : LM75.getThys_value w = LM75.getTemp_value w.
Proof. reflexivity. Qed.

Lemma getTset_value_eq (w : Z) : LM75.getTset_value w = LM75.getTemp_value w.
Proof. reflexivity. Qed.

Lemma decode_spec_halves (w : Z) :
  (decode_spec w
   == (if Z.testbit w 7 then -1 else 1)
      * ((2 * Z.land w 0x007F + Z.b2z (Z.testbit w 15)) # 2))%Q.
Proof.
  unfold decode_spec. cbv zeta.
  generalize (Z.land w 0x007F) (Z.b2z (Z.testbit w 15)). intros m d.
  destruct (Z.testbit w 7); unfold Qeq; simpl; lia.
Qed.

(** Where bit 7 is clear the driver and the specification agree. *)
Lemma getTemp_value_sign_clear (w : Z) :
  Z.testbit w 7 = false -> (LM75.getTemp_value w == decode_spec w)%Q.
Proof.
  intros H. rewrite getTemp_value_halves, decode_spec_halves, H.
  now rewrite Qmult_1_l.
Qed.

(** Where bit 7 is set the driver returns the opposite of what the
    specification asks for. *)
Lemma getTemp_value_sign_set (w : Z) :
  Z.testbit w 7 = true -> (LM75.getTemp_value w == - decode_spec w)%Q.
Proof.
  intros H. rewrite getTemp_value_halves, decode_spec_halves, H.
  generalize ((2 * Z.land w 0x007F + Z.b2z (Z.testbit w 15)) # 2)%Q.
  intros q. ring.
Qed.

End Decoding.

(** ** Running the accessors *)

Section Accessors.

Import smbus LM75.

Variable self : self_t.

Local Abbreviation b := (busno (bus self)).
Local Abbreviation a := (address self).

Lemma getConf_run (c : Z) (w : world) :
  regs w !! (b, a, 0x01) = Some c ->
  getConf self w = Ok c (log (EvReadByte b a 0x01) w).
Proof.
  intros H. unfold getConf, read_byte_data, bus_read, mbind, M_bind.
  unfold _CONFIG. now rewrite H.
Qed.

Lemma getConf_absent (w : world) :
  regs w !! (b, a, 0x01) = None ->
  getConf self w = Raise IOError (log (EvReadByte b a 0x01) w).
Proof.
  intros H. unfold getConf, read_byte_data, bus_read, mbind, M_bind.
  unfold _CONFIG. now rewrite H.
Qed.

Lemma getConf_ok_inv (c : Z) (w w1 : world) :
  getConf self w = Ok c w1 -> regs w !! (b, a, 0x01) = Some c.
Proof.
  unfold getConf, read_byte_data, bus_read, mbind, M_bind. unfold _CONFIG.
  destruct (regs w !! (b, a, 1)); [|discriminate].
  unfold mret, M_ret. now intros [= -> _].
Qed.

Lemma setConf_run (v : Z) (w : world) :
  is_Some (regs w !! (b, a, 0x01)) ->
  setConf self v w
  = Ok tt (store (b, a, 0x01) v (log (EvWriteByte b a 0x01 v) w)).
Proof.
  intros [c H]. unfold setConf, write_byte_data, bus_write.
  unfold _CONFIG. now rewrite H.
Qed.

(** The read-modify-write pattern shared by the configuration helpers:
    read CONFIG, write [f] of what was read, return [r]. *)
Lemma rmw_run {A : Type} (f : Z -> Z) (r : A) (c : Z) (w : world) :
  regs w !! (b, a, 0x01) = Some c ->
  (cfgVal ← getConf self; setConf self (f cfgVal);; mret r) w
  = Ok r (store (b, a, 0x01) (f c)
            (log (EvWriteByte b a 0x01 (f c)) (log (EvReadByte b a 0x01) w))).
Proof.
  intros H. unfold mbind at 1. unfold M_bind at 1.
  rewrite (getConf_run c w H).
  unfold mbind, M_bind. rewrite setConf_run; [reflexivity|].
  simpl. now exists c.
Qed.

Lemma rmw_trace (v : Z) (w : world) :
  trace (store (b, a, 0x01) v
           (log (EvWriteByte b a 0x01 v) (log (EvReadByte b a 0x01) w)))
  = trace w ++ [EvReadByte b a 0x01; EvWriteByte b a 0x01 v].
Proof. simpl. now rewrite <- app_assoc. Qed.

Lemma rmw_readback (v : Z) (w : world) :
  regs (store (b, a, 0x01) v w) !! (b, a, 0x01) = Some v.
Proof. simpl. apply lookup_insert_eq. Qed.

Lemma shutdown_run (c : Z) (w : world) :
  regs w !! (b, a, 0x01) = Some c ->
  shutdown self w
  = Ok true (store (b, a, 0x01) (Z.lor c 0x01)
               (log (EvWriteByte b a 0x01 (Z.lor c 0x01))
                  (log (EvReadByte b a 0x01) w))).
Proof. exact (rmw_run (fun c => Z.lor c 0x01) true c w). Qed.

Lemma wakeup_run (c : Z) (w : world) :
  regs w !! (b, a, 0x01) = Some c ->
  wakeup self w
  = Ok true (store (b, a, 0x01) (Z.land c 0xFE)
               (log (EvWriteByte b a 0x01 (Z.land c 0xFE))
                  (log (EvReadByte b a 0x01) w))).
Proof. exact (rmw_run (fun c => Z.land c 0xFE) true c w). Qed.

Lemma setPolarity_run (polarity c : Z) (w : world) :
  regs w !! (b, a, 0x01) = Some c ->
  let v := if polarity =? 1 then Z.lor c 0x04 else Z.land c (Z.lnot 0x04) in
  setPolarity self polarity w
  = Ok tt (store (b, a, 0x01) v
             (log (EvWriteByte b a 0x01 v) (log (EvReadByte b a 0x01) w))).
Proof.
  exact (rmw_run (fun c => if polarity =? 1 then Z.lor c 0x04
                           else Z.land c (Z.lnot 0x04)) tt c w).
Qed.

Lemma setFaultQueue_valid_run (value c : Z) (w : world) :
  0 <= value <= 3 ->
  regs w !! (b, a, 0x01) = Some c ->
  setFaultQueue self value w
  = Ok true (store (b, a, 0x01) (Z.lor c (Z.shiftl value 3))
               (log (EvWriteByte b a 0x01 (Z.lor c (Z.shiftl value 3)))
                  (log (EvReadByte b a 0x01) w))).
Proof.
  intros Hv H. unfold setFaultQueue.
  rewrite bool_decide_eq_true_2.
  - exact (rmw_run (fun c => Z.lor c (Z.shiftl value 3)) true c w H).
  - set_unfold. lia.
Qed.

Lemma setFaultQueue_invalid_run (value : Z) (w : world) :
  ~ (0 <= value <= 3) ->
  setFaultQueue self value w
  = Ok false
      (World (regs w) (trace w)
         (stdout w
          ++ ["Error: Invalid fault queue value. Must be  0,1,2 or 3"%string])).
Proof.
  intros Hv. unfold setFaultQueue.
  rewrite bool_decide_eq_false_2; [reflexivity|].
  intros Hin. apply Hv. set_unfold in Hin. lia.
Qed.

End Accessors.

(** ** Bits of a configuration byte *)

Section ConfigurationBits.

Lemma byte_high_bits (c i : Z) :
  0 <= c < 256 -> 8 <= i -> Z.testbit c i = false.
Proof.
  intros Hc Hi. rewrite <- (Z.mod_small c (2 ^ 8)) by exact Hc.
  apply Z.mod_pow2_bits_high. lia.
Qed.

Lemma byte_of_bits (x : Z) :
  0 <= x -> (forall i, 8 <= i -> Z.testbit x i = false) -> 0 <= x < 256.
Proof.
  intros Hx Hhigh. replace x with (x mod 2 ^ 8).
  - apply Z.mod_pos_bound. reflexivity.
  - apply Z.bits_inj'. intros i Hi. destruct (Z_lt_le_dec i 8) as [Hlt|Hge].
    + apply Z.mod_pow2_bits_low. lia.
    + rewrite Z.mod_pow2_bits_high by lia. symmetry. now apply Hhigh.
Qed.

Lemma lor_byte (c m : Z) :
  0 <= c < 256 -> 0 <= m < 256 -> 0 <= Z.lor c m < 256.
Proof.
  intros Hc Hm. apply byte_of_bits.
  - apply Z.lor_nonneg. lia.
  - intros i Hi. rewrite Z.lor_spec.
    now rewrite (byte_high_bits c i Hc Hi), (byte_high_bits m i Hm Hi).
Qed.

Lemma land_byte (c m : Z) : 0 <= c < 256 -> 0 <= Z.land c m < 256.
Proof.
  intros Hc. apply byte_of_bits.
  - apply Z.land_nonneg. lia.
  - intros i Hi. rewrite Z.land_spec.
    now rewrite (byte_high_bits c i Hc Hi).
Qed.

(** [c | 2^n] sets bit [n] and keeps the others. *)
Lemma lor_pow2_bits (c n i : Z) :
  0 <= n ->
  Z.testbit (Z.lor c (2 ^ n)) i = if i =? n then true else Z.testbit c i.
Proof.
  intros Hn. destruct (Z_lt_le_dec i 0) as [Hneg|Hpos].
  - rewrite !Z.testbit_neg_r by lia.
    destruct (Z.eqb_spec i n); [lia | reflexivity].
  - rewrite Z.lor_spec, Z.pow2_bits_eqb by lia. rewrite (Z.eqb_sym n i).
    destruct (i =? n); [apply orb_true_r | apply orb_false_r].
Qed.

(** [c & ~2^n] clears bit [n] and keeps the others. *)
Lemma land_lnot_pow2_bits (c n i : Z) :
  0 <= n ->
  Z.testbit (Z.land c (Z.lnot (2 ^ n))) i
  = if i =? n then false else Z.testbit c i.
Proof.
  intros Hn. destruct (Z_lt_le_dec i 0) as [Hneg|Hpos].
  - rewrite !Z.testbit_neg_r by lia.
    destruct (Z.eqb_spec i n); [lia | reflexivity].
  - rewrite Z.land_spec, Z.lnot_spec, Z.pow2_bits_eqb by lia.
    rewrite (Z.eqb_sym n i).
    destruct (i =? n); [apply andb_false_r | apply andb_true_r].
Qed.

(** On a byte, [c & 0xFE] clears bit 0 and keeps the others. *)
Lemma land_FE_bits (c i : Z) :
  0 <= c < 256 ->
  Z.testbit (Z.land c 0xFE) i = if i =? 0 then false else Z.testbit c i.
Proof.
  intros Hc. rewrite Z.land_spec.
  destruct (Z.eqb_spec i 0) as [->|Hne]; [apply andb_false_r|].
  destruct (Z_lt_le_dec i 0) as [Hneg|Hpos].
  - now rewrite !Z.testbit_neg_r by lia.
  - destruct (Z_lt_le_dec i 8) as [Hlt|Hge].
    + assert (i = 1 \/ i = 2 \/ i = 3 \/ i = 4 \/ i = 5 \/ i = 6 \/ i = 7)
        as Hcases by lia.
      destruct Hcases as [E|[E|[E|[E|[E|[E|E]]]]]]; rewrite E;
        apply andb_true_r.
    + now rewrite (byte_high_bits c i Hc Hge).
Qed.

(** What [setFaultQueue] does to the fault queue field: the new depth is
    or-ed onto the old one. *)
Lemma fault_queue_field_lor (c value : Z) :
  0 <= value <= 3 ->
  fault_queue_field (Z.lor c (Z.shiftl value 3))
  = Z.lor (fault_queue_field c) value.
Proof.
  intros Hv. unfold fault_queue_field.
  rewrite Z.shiftr_lor, Z.shiftr_shiftl_l by lia.
  change (3 - 3) with 0. rewrite Z.shiftl_0_r, Z.land_lor_distr_l.
  f_equal. change 3 with (Z.ones 2) at 1. rewrite Z.land_ones by lia.
  apply Z.mod_small. change (2 ^ 2) with 4. lia.
Qed.


End ConfigurationBits.

(** ** Running the getters and the constructor *)

Section Getters.

Import smbus LM75.

Lemma present_lookup (b a r : Z) (w : world) :
  present b a w = true -> 0 <= r <= 3 -> is_Some (regs w !! (b, a, r)).
Proof.
  unfold present. simpl. unfold answers. intros H Hr.
  assert (r = 0 \/ r = 1 \/ r = 2 \/ r = 3) as Hcases by lia.
  destruct Hcases as [E|[E|[E|E]]]; rewrite E;
    destruct (regs w !! (b, a, 0)), (regs w !! (b, a, 1)),
             (regs w !! (b, a, 2)), (regs w !! (b, a, 3));
    simpl in H; try discriminate; eauto.
Qed.

Variable self : self_t.

Local Abbreviation b := (busno (bus self)).
Local Abbreviation a := (address self).

Lemma getTemp_run (raw : Z) (w : world) :
  regs w !! (b, a, 0x00) = Some raw ->
  getTemp self w = Ok (getTemp_value raw) (log (EvReadWord b a 0x00) w).
Proof.
  intros H. unfold getTemp, read_word_data, bus_read, mbind, M_bind.
  now rewrite H.
Qed.

Lemma getThys_run (raw : Z) (w : world) :
  regs w !! (b, a, 0x02) = Some raw ->
  getThys self w = Ok (getThys_value raw) (log (EvReadWord b a 0x02) w).
Proof.
  intros H. unfold getThys, read_word_data, bus_read, mbind, M_bind.
  unfold _THYST. now rewrite H.
Qed.

Lemma getTset_run (raw : Z) (w : world) :
  regs w !! (b, a, 0x03) = Some raw ->
  getTset self w = Ok (getTset_value raw) (log (EvReadWord b a 0x03) w).
Proof.
  intros H. unfold getTset, read_word_data, bus_read, mbind, M_bind.
  unfold _TSET. now rewrite H.
Qed.

End Getters.

Section Construction.

Import smbus LM75.

Variables add bus : Z.

Local Abbreviation constructed := (constructed add bus).

Lemma init_run (w : world) :
  present bus add w = true ->
  init add bus w = Ok (mkLM75 (mkSMBus bus) add) (constructed w).
Proof.
  intros Hp.
  destruct (present_lookup bus add 1 w Hp ltac:(lia)) as [c1 H1].
  destruct (present_lookup bus add 2 w Hp ltac:(lia)) as [c2 H2].
  destruct (present_lookup bus add 3 w Hp ltac:(lia)) as [c3 H3].
  unfold init, setConf, setThys, setTset, write_byte_data, write_word_data.
  unfold _CONFIG, _THYST, _TSET, mbind, M_bind, bus_write. simpl.
  rewrite H1. simpl.
  rewrite lookup_insert_ne by (intros [=]). rewrite H2. simpl.
  rewrite lookup_insert_ne by (intros [=]).
  rewrite lookup_insert_ne by (intros [=]). rewrite H3.
  reflexivity.
Qed.

Lemma constructed_trace (w : world) :
  trace (constructed w)
  = trace w ++ [EvWriteByte bus add 0x01 0x00;
                EvWriteWord bus add 0x02 0x004B;
                EvWriteWord bus add 0x03 0x0050].
Proof. simpl. now rewrite <- !app_assoc. Qed.

Lemma constructed_regs (w : world) :
  regs (constructed w) !! (bus, add, 0x01) = Some 0x00
  /\ regs (constructed w) !! (bus, add, 0x02) = Some 0x004B
  /\ regs (constructed w) !! (bus, add, 0x03) = Some 0x0050.
Proof.
  simpl. repeat split.
  - rewrite !lookup_insert_ne by (intros [=]). apply lookup_insert_eq.
  - rewrite lookup_insert_ne by (intros [=]). apply lookup_insert_eq.
  - apply lookup_insert_eq.
Qed.

(** Whenever the constructor returns, it has issued the three writes and
    nothing else. *)
Lemma init_ok_trace (w w' : world) (self : self_t) :
  init add bus w = Ok self w' ->
  self = mkLM75 (mkSMBus bus) add /\ w' = constructed w.
Proof.
  unfold init, setConf, setThys, setTset, write_byte_data, write_word_data.
  unfold _CONFIG, _THYST, _TSET, mbind, M_bind, bus_write. simpl.
  destruct (regs w !! (bus, add, 1)); [simpl|discriminate].
  rewrite lookup_insert_ne by (intros [=]).
  destruct (regs w !! (bus, add, 2)); [simpl|discriminate].
  rewrite !lookup_insert_ne by (intros [=]).
  destruct (regs w !! (bus, add, 3)); [simpl|discriminate].
  intros [= <- <-]. split; reflexivity.
Qed.

End Construction.

(** ** The rational model of the float arithmetic is exact *)

Section Binary64.

Lemma binary64_agrees_all :
  forallb (fun temsign =>
    forallb (fun temp =>
      forallb (fun dec => binary64_agrees temsign temp dec) [0; 1])
      (map Z.of_nat (seq 0 128)))
    [0; 128] = true.
Proof. vm_compute. reflexivity. Qed.

(** For every raw word, the binary64 evaluation of the expression of
    [getTemp] is a finite float whose value is the rational
    [getTemp_value] computes. *)
Lemma binary64_exact (w : Z) :
  exists q : Q,
    Q_of_float (getTemp_value_binary64 w) = Some q
    /\ (q == LM75.getTemp_value w)%Q.
Proof.
  pose proof (sign_mask w) as Hs. pose proof (dec_bit w) as Hd.
  pose proof (magnitude_range w) as Hm.
  assert (binary64_agrees (Z.land w 0x0080) (Z.land w 0x007F)
            (Z.shiftr (Z.land w 0x8000) 15) = true) as H.
  { pose proof binary64_agrees_all as Hall.
    rewrite forallb_forall in Hall.
    assert (In (Z.land w 0x0080) [0; 128]) as Hin1.
    { rewrite Hs. destruct (Z.testbit w 7); simpl; auto. }
    specialize (Hall _ Hin1). rewrite forallb_forall in Hall.
    assert (In (Z.land w 0x007F) (map Z.of_nat (seq 0 128))) as Hin2.
    { rewrite <- (Z2Nat.id (Z.land w 0x007F)) by lia.
      apply in_map, in_seq. lia. }
    specialize (Hall _ Hin2). rewrite forallb_forall in Hall.
    apply Hall. rewrite Hd. destruct (Z.testbit w 15); simpl; auto. }
  unfold binary64_agrees in H.
  change (float_of_int ((-1) ^ Z.land w 0x0080)
          * (float_of_int (Z.land w 0x007F)
             + 0.5 * float_of_int (Z.shiftr (Z.land w 0x8000) 15)))%float
    with (getTemp_value_binary64 w) in H.
  destruct (Q_of_float (getTemp_value_binary64 w)) as [q|]; [|discriminate].
  exists q. split; [reflexivity|]. now apply Qeq_bool_iff.
Qed.

End Binary64.

(** ** Temperature decoding: the claims *)

Section DecodingClaims.

Import smbus LM75.

(** C1 (the driver departs from it).  The claim: a raw word with bit 7
    set decodes to the negation of magnitude + 0.5 x dec.  On the raw
    word 0x0081 (sign flag set, magnitude 1, no half degree) [getTemp]
    reads register 0x00 and returns +1.0, where the specification's
    formula gives -1.0: the exponent of [(-1) ** temsign] is the masked
    bit, 128, not the flag. *)
Theorem getTemp_ignores_sign_flag :
  getTemp sensor (bench 0x0081 0x00 0x004B 0x0050)
  = Ok (getTemp_value 0x0081)
       (log (EvReadWord 1 0x48 0x00) (bench 0x0081 0x00 0x004B 0x0050))
  /\ Z.testbit 0x0081 7 = true
  /\ Z.land 0x0081 0x0080 = 128
  /\ (getTemp_value 0x0081 == 1)%Q
  /\ (decode_spec 0x0081 == -1)%Q.
Proof.
  split; [apply (getTemp_run sensor 0x0081)|]; repeat split; reflexivity.
Qed.

(** Every value the specification's decoding can produce lies in
    [-127.5, 127.5]: the format has no encoding of -128.0. *)
Lemma decode_spec_range (w : Z) : (-127.5 <= decode_spec w <= 127.5)%Q.
Proof.
  rewrite decode_spec_halves.
  pose proof (magnitude_range w) as Hm.
  pose proof (b2z_range (Z.testbit w 15)) as Hd.
  revert Hm Hd.
  generalize (Z.land w 0x007F) (Z.b2z (Z.testbit w 15)). intros m d Hm Hd.
  destruct (Z.testbit w 7); unfold Qle; simpl; lia.
Qed.

(** The word the specification's encoding gives a non-negative
    temperature of [k] half degrees. *)
Lemma encode_spec_nonneg (x : Q) (k : Z) :
  (x == k # 2)%Q -> 0 <= k ->
  encode_spec x
  = Z.lor (Z.lor (Z.shiftl (k mod 2) 15) (Z.shiftl 0 7))
          (Z.land (k / 2) 0x007F).
Proof.
  intros Hx Hk. unfold encode_spec.
  assert (0 <= x)%Q as Hpos by (rewrite Hx; unfold Qle; simpl; lia).
  assert (Qle_bool 0 x = true) as -> by now apply Qle_bool_iff.
  assert (Qfloor (2 * Qabs x) = k) as ->; [|reflexivity].
  rewrite <- (Qfloor_Z k). apply Qfloor_comp.
  rewrite Qabs_pos by exact Hpos. rewrite Hx.
  unfold Qeq. simpl. lia.
Qed.

(** The word it gives a negative temperature of [-k] half degrees. *)
Lemma encode_spec_neg (x : Q) (k : Z) :
  (x == - k # 2)%Q -> 0 < k ->
  encode_spec x
  = Z.lor (Z.lor (Z.shiftl (k mod 2) 15) (Z.shiftl 1 7))
          (Z.land (k / 2) 0x007F).
Proof.
  intros Hx Hk. unfold encode_spec.
  assert (x < 0)%Q as Hneg by (rewrite Hx; unfold Qlt; simpl; lia).
  assert (Qle_bool 0 x = false) as ->.
  { destruct (Qle_bool 0 x) eqn:E; [|reflexivity].
    apply Qle_bool_iff in E. exfalso. apply (Qlt_not_le _ _ Hneg E). }
  assert (Qfloor (2 * Qabs x) = k) as ->; [|reflexivity].
  rewrite <- (Qfloor_Z k). apply Qfloor_comp.
  rewrite Qabs_neg by now apply Qlt_le_weak. rewrite Hx.
  unfold Qeq. simpl. lia.
Qed.

(** Decoding a word assembled from a sign flag [s], a half-degree flag
    and a 7-bit magnitude gives the magnitude and the half degree back,
    and drops the sign. *)
Lemma getTemp_value_assembled (k s : Z) :
  0 <= k <= 255 -> s = 0 \/ s = 1 ->
  (getTemp_value
     (Z.lor (Z.lor (Z.shiftl (k mod 2) 15) (Z.shiftl s 7))
            (Z.land (k / 2) 0x007F))
   == k # 2)%Q.
Proof.
  intros Hk Hs. rewrite getTemp_value_halves.
  assert (0 <= k / 2 <= 127) as Hm by (Z.div_mod_to_equations; lia).
  assert (Z.land (k / 2) 0x007F = k / 2) as Hmask.
  { pose proof (Z.land_ones (k / 2) 7 ltac:(lia)) as E.
    change (Z.ones 7) with 127 in E. rewrite E. apply Z.mod_small.
    change (2 ^ 7) with 128. lia. }
  rewrite Hmask.
  assert (Z.testbit (k / 2) 15 = false) as Hhigh.
  { apply byte_high_bits; lia. }
  pose proof (Z.mod_pos_bound k 2 ltac:(lia)) as Hd.
  pose proof (Z.div_mod k 2 ltac:(lia)) as Hdm.
  rewrite !Z.land_lor_distr_l, !Z.lor_spec, Hhigh, Hmask.
  assert (k mod 2 = 0 \/ k mod 2 = 1) as [E|E] by lia;
    destruct Hs as [-> | ->]; rewrite E; simpl;
    match goal with
    | |- context [Z.lor (Z.lor ?hi ?lo) _] =>
        replace (Z.lor hi lo) with 0 by reflexivity
    end;
    rewrite Z.lor_0_l; unfold Qeq; simpl; lia.
Qed.

(** C2 (as amended).  For every temperature [x] in [0.0, 127.5] at a
    0.5 degree step, the decoding of [getTemp] applied to the
    sign-magnitude encoding of [x] gives [x] back. *)
Theorem roundtrip_nonnegative (x : Q) :
  (0 <= x <= 127.5)%Q -> half_step x ->
  (getTemp_value (encode_spec x) == x)%Q.
Proof.
  intros [Hlo Hhi] [k Hk].
  assert (0 <= k <= 255) as Hrange.
  { rewrite Hk in Hlo, Hhi. unfold Qle in Hlo, Hhi. simpl in Hlo, Hhi. lia. }
  rewrite (encode_spec_nonneg x k Hk) by lia.
  rewrite (getTemp_value_assembled k 0 Hrange) by now left.
  now symmetry.
Qed.

Lemma roundtrip_nonnegative_witness :
  (0 <= 75.5 <= 127.5)%Q /\ half_step 75.5
  /\ (getTemp_value (encode_spec 75.5) == 75.5)%Q.
Proof.
  assert (0 <= 75.5 <= 127.5)%Q as Hrange by (split; discriminate).
  assert (half_step 75.5) as Hstep by (exists 151; reflexivity).
  exact (conj Hrange (conj Hstep (roundtrip_nonnegative 75.5 Hrange Hstep))).
Defined.

(** C2 (as stated) fails at its lower end: -128.0 is within the stated
    range and at a 0.5 step, its magnitude does not fit bits 0-6, and
    the word the encoding gives, 0x0080, decodes to 0.0. *)
Lemma roundtrip_fails_at_minus_128 :
  (-128 <= -128 <= 127.5)%Q /\ half_step (-128)
  /\ encode_spec (-128) = 0x0080
  /\ (getTemp_value 0x0080 == 0)%Q
  /\ ~ (getTemp_value (encode_spec (-128)) == -128)%Q.
Proof.
  split; [split; discriminate|].
  split; [exists (-256); reflexivity|].
  split; [reflexivity|].
  split; [reflexivity|].
  intros H. vm_compute in H. discriminate H.
Qed.

(** Between -127.5 and -0.5 the encoding is faithful (the
    specification's decoding inverts it) and the decoding of the driver
    loses the sign. *)
Lemma roundtrip_negative_sign_lost (x : Q) :
  (-127.5 <= x)%Q -> (x < 0)%Q -> half_step x ->
  (getTemp_value (encode_spec x) == - x)%Q
  /\ (decode_spec (encode_spec x) == x)%Q.
Proof.
  intros Hlo Hhi [k Hk].
  assert (1 <= - k <= 255) as Hrange.
  { rewrite Hk in Hlo, Hhi. unfold Qle in Hlo. unfold Qlt in Hhi.
    simpl in Hlo, Hhi. lia. }
  assert (x == - (- k) # 2)%Q as Hk'.
  { rewrite Hk. unfold Qeq. simpl. lia. }
  assert (getTemp_value (encode_spec x) == - x)%Q as Hcode.
  { rewrite (encode_spec_neg x (- k) Hk') by lia.
    rewrite (getTemp_value_assembled (- k) 1) by (try right; lia).
    rewrite Hk. unfold Qeq. simpl. lia. }
  split; [exact Hcode|].
  assert (Z.testbit (encode_spec x) 7 = true) as Hbit.
  { rewrite (encode_spec_neg x (- k) Hk') by lia.
    rewrite !Z.lor_spec. change (Z.testbit (Z.shiftl 1 7) 7) with true.
    rewrite orb_true_r. reflexivity. }
  rewrite <- (Qopp_involutive (decode_spec (encode_spec x))).
  rewrite <- (getTemp_value_sign_set _ Hbit), Hcode.
  apply Qopp_involutive.
Qed.

(** C8.  For every raw word, [getTemp], [getThys] and [getTset] return
    the same value when the register each of them reads (0x00, 0x02 and
    0x03 respectively) holds that word; they differ only in the
    register address of their single bus read. *)
Theorem getters_same_decode (self : self_t) (raw : Z) (w0 w2 w3 : world) :
  regs w0 !! (busno (bus self), address self, 0x00) = Some raw ->
  regs w2 !! (busno (bus self), address self, 0x02) = Some raw ->
  regs w3 !! (busno (bus self), address self, 0x03) = Some raw ->
  getThys_value raw = getTemp_value raw
  /\ getTset_value raw = getTemp_value raw
  /\ exists v : Q,
      getTemp self w0
      = Ok v (log (EvReadWord (busno (bus self)) (address self) 0x00) w0)
      /\ getThys self w2
         = Ok v (log (EvReadWord (busno (bus self)) (address self) 0x02) w2)
      /\ getTset self w3
         = Ok v (log (EvReadWord (busno (bus self)) (address self) 0x03) w3).
Proof.
  intros H0 H2 H3. split; [reflexivity|]. split; [reflexivity|].
  exists (getTemp_value raw). split; [|split].
  - exact (getTemp_run self raw w0 H0).
  - exact (getThys_run self raw w2 H2).
  - exact (getTset_run self raw w3 H3).
Qed.

Lemma getters_same_decode_witness :
  exists v : Q,
    getTemp sensor (bench 0x8019 0x00 0x8019 0x8019)
    = Ok v (log (EvReadWord 1 0x48 0x00) (bench 0x8019 0x00 0x8019 0x8019))
    /\ getThys sensor (bench 0x8019 0x00 0x8019 0x8019)
       = Ok v (log (EvReadWord 1 0x48 0x02) (bench 0x8019 0x00 0x8019 0x8019))
    /\ getTset sensor (bench 0x8019 0x00 0x8019 0x8019)
       = Ok v (log (EvReadWord 1 0x48 0x03) (bench 0x8019 0x00 0x8019 0x8019)).
Proof.
  exact (proj2 (proj2
    (getters_same_decode sensor 0x8019
       (bench 0x8019 0x00 0x8019 0x8019) (bench 0x8019 0x00 0x8019 0x8019)
       (bench 0x8019 0x00 0x8019 0x8019) eq_refl eq_refl eq_refl))).
Defined.

End DecodingClaims.

Section DecodingRange.

Import smbus LM75.

(** C9.  The decoding of the getters maps the raw word 0x0000 to 0.0;
    the words the constructor writes as hysteresis and set-point
    defaults, 0x004B and 0x0050, are read back by [getThys] and
    [getTset] as 75.0 and 80.0. *)
Theorem decode_defaults (add bus : Z) (w : world) :
  present bus add w = true ->
  (getTemp_value 0x0000 == 0)%Q
  /\ (getThys_value 0x0000 == 0)%Q
  /\ (getTset_value 0x0000 == 0)%Q
  /\ exists (self : self_t) (w0 : world),
      init add bus w = Ok self w0
      /\ regs w0 !! (bus, add, 0x02) = Some 0x004B
      /\ regs w0 !! (bus, add, 0x03) = Some 0x0050
      /\ exists (thys tset : Q) (w1 w2 : world),
          getThys self w0 = Ok thys w1 /\ (thys == 75)%Q
          /\ getTset self w1 = Ok tset w2 /\ (tset == 80)%Q.
Proof.
  intros Hp. repeat (split; [reflexivity|]).
  destruct (constructed_regs add bus w) as (_ & H2 & H3).
  exists (mkLM75 (mkSMBus bus) add), (constructed add bus w).
  split; [exact (init_run add bus w Hp)|].
  split; [exact H2|]. split; [exact H3|].
  exists (getThys_value 0x004B), (getTset_value 0x0050).
  exists (log (EvReadWord bus add 0x02) (constructed add bus w)).
  exists (log (EvReadWord bus add 0x03)
            (log (EvReadWord bus add 0x02) (constructed add bus w))).
  split; [exact (getThys_run (mkLM75 (mkSMBus bus) add) 0x004B _ H2)|].
  split; [reflexivity|].
  split; [apply (getTset_run (mkLM75 (mkSMBus bus) add) 0x0050); exact H3|].
  reflexivity.
Qed.

Lemma decode_defaults_witness :
  present 1 0x48 (bench 0x0019 0x1F 0x0000 0x0000) = true
  /\ exists (self : self_t) (w0 : world),
      init 0x48 1 (bench 0x0019 0x1F 0x0000 0x0000) = Ok self w0
      /\ regs w0 !! (1, 0x48, 0x02) = Some 0x004B
      /\ regs w0 !! (1, 0x48, 0x03) = Some 0x0050
      /\ exists (thys tset : Q) (w1 w2 : world),
          getThys self w0 = Ok thys w1 /\ (thys == 75)%Q
          /\ getTset self w1 = Ok tset w2 /\ (tset == 80)%Q.
Proof.
  split; [reflexivity|].
  exact (proj2 (proj2 (proj2
    (decode_defaults 0x48 1 (bench 0x0019 0x1F 0x0000 0x0000) eq_refl)))).
Defined.

Lemma getTemp_value_nonneg_half_steps (w : Z) :
  nonneg_half_steps (getTemp_value w).
Proof.
  pose proof (magnitude_range w) as Hm.
  pose proof (b2z_range (Z.testbit w 15)) as Hd.
  pose proof (getTemp_value_halves w) as E. revert Hm Hd E.
  generalize (Z.land w 0x007F) (Z.b2z (Z.testbit w 15)). intros m d Hm Hd E.
  split; [split|].
  - rewrite E. unfold Qle. simpl. lia.
  - rewrite E. unfold Qle. simpl. lia.
  - exists (2 * m + d). rewrite E. unfold Qeq. simpl. lia.
Qed.

(** C10.  For every 16-bit raw word the exponent of the sign term is 0
    or 128, the sign term [(-1) ** (w & 0x0080)] is +1, and the value
    decoded by [getTemp], [getThys] and [getTset] lies in [0.0, 127.5]
    and is a multiple of 0.5. *)
Theorem decode_nonnegative (w : Z) :
  0 <= w < 65536 ->
  (Z.land w 0x0080 = 0 \/ Z.land w 0x0080 = 128)
  /\ (-1) ^ Z.land w 0x0080 = 1
  /\ nonneg_half_steps (getTemp_value w)
  /\ nonneg_half_steps (getThys_value w)
  /\ nonneg_half_steps (getTset_value w).
Proof.
  intros _. split; [|split; [exact (sign_term w)|]].
  - rewrite sign_mask. destruct (Z.testbit w 7); [now right | now left].
  - split; [|split]; exact (getTemp_value_nonneg_half_steps w).
Qed.

Lemma decode_nonnegative_witness :
  0 <= 0xFFFF < 65536
  /\ (-1) ^ Z.land 0xFFFF 0x0080 = 1
  /\ nonneg_half_steps (getTemp_value 0xFFFF).
Proof.
  assert (0 <= 0xFFFF < 65536) as Hw by lia.
  split; [exact Hw|].
  split; [exact (proj1 (proj2 (decode_nonnegative 0xFFFF Hw)))|].
  exact (proj1 (proj2 (proj2 (decode_nonnegative 0xFFFF Hw)))).
Defined.

End DecodingRange.

(** ** Configuration helpers and construction: the claims *)

Section ConfigurationClaims.

Import smbus LM75.


(** C3 (the driver departs from it).  The claim: the written byte has
    bits 3-4 equal to the depth.  With the fault queue field holding 1
    (configuration byte 0x08), [setFaultQueue(2)] reads CONFIG and writes
    0x18 back: nothing clears bits 3-4 before the or, and the field
    read back by [getConf] is binary 11, not binary 10. *)
Theorem setFaultQueue_keeps_old_depth_bits :
  exists w' : world,
    setFaultQueue sensor 2 (bench 0x0019 0x08 0x004B 0x0050) = Ok true w'
    /\ trace w' = [EvReadByte 1 0x48 0x01; EvWriteByte 1 0x48 0x01 0x18]
    /\ getConf sensor w' = Ok 0x18 (log (EvReadByte 1 0x48 0x01) w')
    /\ fault_queue_field 0x08 = 1
    /\ fault_queue_field 0x18 = 3
    /\ fault_queue_field 0x18 <> 2.
Proof.
  eexists. split.
  - apply (setFaultQueue_valid_run sensor 2 0x08); [lia | reflexivity].
  - split; [reflexivity|]. split; [|repeat split; discriminate].
    apply (getConf_run sensor 0x18). apply rmw_readback.
Qed.

(** C4.  For every depth outside {0,1,2,3}, [setFaultQueue] reports the
    failure (it prints the error message and returns [False]), requests
    no bus transaction at all, and leaves the registers as they were: a
    subsequent [getConf] observes the configuration byte that a
    [getConf] before the call would have observed. *)
Theorem setFaultQueue_invalid (self : self_t) (value : Z) (w : world) :
  ~ (0 <= value <= 3) ->
  exists w' : world,
    setFaultQueue self value w = Ok false w'
    /\ stdout w'
       = stdout w
         ++ ["Error: Invalid fault queue value. Must be  0,1,2 or 3"%string]
    /\ trace w' = trace w
    /\ regs w' = regs w
    /\ forall (c : Z) (w1 : world),
        getConf self w = Ok c w1 ->
        getConf self w'
        = Ok c (log (EvReadByte (busno (bus self)) (address self) 0x01) w').
Proof.
  intros Hv. eexists.
  split; [exact (setFaultQueue_invalid_run self value w Hv)|].
  repeat (split; [reflexivity|]).
  intros c w1 H. apply getConf_run. simpl.
  exact (getConf_ok_inv self c w w1 H).
Qed.

Lemma setFaultQueue_invalid_witness :
  ~ (0 <= 4 <= 3)
  /\ exists w' : world,
      setFaultQueue sensor 4 (bench 0x0019 0x08 0x004B 0x0050) = Ok false w'
      /\ stdout w'
         = ["Error: Invalid fault queue value. Must be  0,1,2 or 3"%string]
      /\ trace w' = []
      /\ regs w' = regs (bench 0x0019 0x08 0x004B 0x0050)
      /\ getConf sensor w' = Ok 0x08 (log (EvReadByte 1 0x48 0x01) w').
Proof.
  assert (~ (0 <= 4 <= 3)) as Hv by lia.
  split; [exact Hv|].
  destruct (setFaultQueue_invalid sensor 4
              (bench 0x0019 0x08 0x004B 0x0050) Hv)
    as (w' & Hrun & Hout & Htrace & Hregs & Hconf).
  exists w'. repeat (split; [assumption|]).
  exact (Hconf 0x08 _
           (getConf_run sensor 0x08 (bench 0x0019 0x08 0x004B 0x0050) eq_refl)).
Defined.

(** C5.  Constructing the sensor object on a bus where the device
    answers requests exactly three bus transactions, all writes, in this
    order: 0x00 to the configuration register 0x01, 0x004B to the
    hysteresis register 0x02, 0x0050 to the set-point register 0x03.
    The object is returned only after them, and nothing is printed. *)
Theorem init_three_writes (add bus : Z) (w : world) :
  present bus add w = true ->
  exists w' : world,
    init add bus w = Ok (mkLM75 (mkSMBus bus) add) w'
    /\ trace w'
       = trace w ++ [EvWriteByte bus add 0x01 0x00;
                     EvWriteWord bus add 0x02 0x004B;
                     EvWriteWord bus add 0x03 0x0050]
    /\ stdout w' = stdout w.
Proof.
  intros Hp. exists (constructed add bus w).
  split; [exact (init_run add bus w Hp)|].
  split; [apply constructed_trace | reflexivity].
Qed.

Lemma init_three_writes_witness :
  present 1 0x48 (bench 0x0019 0x1F 0x0000 0x0000) = true
  /\ exists w' : world,
      init 0x48 1 (bench 0x0019 0x1F 0x0000 0x0000) = Ok sensor w'
      /\ trace w'
         = [EvWriteByte 1 0x48 0x01 0x00; EvWriteWord 1 0x48 0x02 0x004B;
            EvWriteWord 1 0x48 0x03 0x0050]
      /\ stdout w' = [].
Proof.
  split; [reflexivity|].
  exact (init_three_writes 0x48 1 (bench 0x0019 0x1F 0x0000 0x0000) eq_refl).
Defined.

End ConfigurationClaims.

Section BitHelpersClaims.

Import smbus LM75.

Variable self : self_t.

Local Abbreviation b := (busno (bus self)).
Local Abbreviation a := (address self).

(** C6.  For every prior configuration byte [c], [setPolarity] reads
    CONFIG and writes back a byte [v] whose bit 2 is set when the
    argument is 1 and clear for any other argument, and whose other bits
    (bits 0, 1, 3, 4 among them) are those of [c]. *)
Theorem setPolarity_bit2 (polarity c : Z) (w : world) :
  0 <= c < 256 ->
  regs w !! (b, a, 0x01) = Some c ->
  exists (v : Z) (w' : world),
    setPolarity self polarity w = Ok tt w'
    /\ trace w' = trace w ++ [EvReadByte b a 0x01; EvWriteByte b a 0x01 v]
    /\ 0 <= v < 256
    /\ Z.testbit v 2 = (polarity =? 1)
    /\ (forall i, i <> 2 -> Z.testbit v i = Z.testbit c i)
    /\ getConf self w' = Ok v (log (EvReadByte b a 0x01) w').
Proof.
  intros Hc H. eexists _, _.
  split; [exact (setPolarity_run self polarity c w H)|].
  split; [apply rmw_trace|].
  split; [|split; [|split]].
  - destruct (polarity =? 1); [apply lor_byte; [exact Hc | lia]|].
    now apply land_byte.
  - destruct (polarity =? 1).
    + exact (lor_pow2_bits c 2 2 ltac:(lia)).
    + exact (land_lnot_pow2_bits c 2 2 ltac:(lia)).
  - intros i Hi. destruct (polarity =? 1).
    + transitivity (if i =? 2 then true else Z.testbit c i);
        [exact (lor_pow2_bits c 2 i ltac:(lia))|].
      destruct (Z.eqb_spec i 2); [contradiction | reflexivity].
    + transitivity (if i =? 2 then false else Z.testbit c i);
        [exact (land_lnot_pow2_bits c 2 i ltac:(lia))|].
      destruct (Z.eqb_spec i 2); [contradiction | reflexivity].
  - apply getConf_run, rmw_readback.
Qed.

(** C7.  For every prior configuration byte [c], [shutdown] writes [c]
    back with bit 0 set and [wakeup] writes it back with bit 0 cleared,
    the other bits being those of [c]; a [getConf] that follows reads
    the written byte, so it observes bit 0 set after [shutdown] and
    clear after [wakeup]. *)
Theorem shutdown_wakeup_bit0 (c : Z) (w : world) :
  0 <= c < 256 ->
  regs w !! (b, a, 0x01) = Some c ->
  (exists (v : Z) (w' : world),
      shutdown self w = Ok true w'
      /\ trace w' = trace w ++ [EvReadByte b a 0x01; EvWriteByte b a 0x01 v]
      /\ Z.testbit v 0 = true
      /\ (forall i, i <> 0 -> Z.testbit v i = Z.testbit c i)
      /\ getConf self w' = Ok v (log (EvReadByte b a 0x01) w'))
  /\ (exists (v : Z) (w' : world),
      wakeup self w = Ok true w'
      /\ trace w' = trace w ++ [EvReadByte b a 0x01; EvWriteByte b a 0x01 v]
      /\ Z.testbit v 0 = false
      /\ (forall i, i <> 0 -> Z.testbit v i = Z.testbit c i)
      /\ getConf self w' = Ok v (log (EvReadByte b a 0x01) w')).
Proof.
  intros Hc H. split.
  - eexists _, _. split; [exact (shutdown_run self c w H)|].
    split; [apply rmw_trace|]. split; [|split].
    + exact (lor_pow2_bits c 0 0 ltac:(lia)).
    + intros i Hi. transitivity (if i =? 0 then true else Z.testbit c i);
        [exact (lor_pow2_bits c 0 i ltac:(lia))|].
      destruct (Z.eqb_spec i 0); [contradiction | reflexivity].
    + apply getConf_run, rmw_readback.
  - eexists _, _. split; [exact (wakeup_run self c w H)|].
    split; [apply rmw_trace|]. split; [|split].
    + exact (land_FE_bits c 0 Hc).
    + intros i Hi. rewrite (land_FE_bits c i Hc).
      destruct (Z.eqb_spec i 0); [contradiction | reflexivity].
    + apply getConf_run, rmw_readback.
Qed.

End BitHelpersClaims.

Section BitHelpersWitnesses.

Import smbus LM75.

Lemma setPolarity_bit2_witness :
  0 <= 0x1B < 256
  /\ regs (bench 0x0019 0x1B 0x004B 0x0050) !! (1, 0x48, 0x01) = Some 0x1B
  /\ exists (v : Z) (w' : world),
      setPolarity sensor 1 (bench 0x0019 0x1B 0x004B 0x0050) = Ok tt w'
      /\ trace w' = [EvReadByte 1 0x48 0x01; EvWriteByte 1 0x48 0x01 v]
      /\ 0 <= v < 256
      /\ Z.testbit v 2 = true
      /\ (forall i, i <> 2 -> Z.testbit v i = Z.testbit 0x1B i)
      /\ getConf sensor w' = Ok v (log (EvReadByte 1 0x48 0x01) w').
Proof.
  assert (0 <= 0x1B < 256) as Hc by lia.
  split; [exact Hc|]. split; [reflexivity|].
  exact (setPolarity_bit2 sensor 1 0x1B
           (bench 0x0019 0x1B 0x004B 0x0050) Hc eq_refl).
Defined.

Lemma shutdown_wakeup_bit0_witness :
  0 <= 0x1F < 256
  /\ regs (bench 0x0019 0x1F 0x004B 0x0050) !! (1, 0x48, 0x01) = Some 0x1F
  /\ exists (v : Z) (w' : world),
      wakeup sensor (bench 0x0019 0x1F 0x004B 0x0050) = Ok true w'
      /\ trace w' = [EvReadByte 1 0x48 0x01; EvWriteByte 1 0x48 0x01 v]
      /\ Z.testbit v 0 = false
      /\ (forall i, i <> 0 -> Z.testbit v i = Z.testbit 0x1F i)
      /\ getConf sensor w' = Ok v (log (EvReadByte 1 0x48 0x01) w').
Proof.
  assert (0 <= 0x1F < 256) as Hc by lia.
  split; [exact Hc|]. split; [reflexivity|].
  exact (proj2 (shutdown_wakeup_bit0 sensor 0x1F
                  (bench 0x0019 0x1F 0x004B 0x0050) Hc eq_refl)).
Defined.

End BitHelpersWitnesses.

(** ** The configuration helpers, beyond the claims *)

Section ConfigurationHelpers.

Import smbus LM75.

Variable self : self_t.

Local Abbreviation b := (busno (bus self)).
Local Abbreviation a := (address self).
Local Abbreviation rmw f r :=
  (cfgVal ← getConf self; setConf self (f cfgVal);; mret r).

Lemma rmw_absent {A : Type} (f : Z -> Z) (r : A) (w : world) :
  regs w !! (b, a, 0x01) = None ->
  rmw f r w = Raise IOError (log (EvReadByte b a 0x01) w).
Proof.
  intros H. unfold mbind at 1. unfold M_bind at 1.
  now rewrite (getConf_absent self w H).
Qed.

Lemma rmw_frame {A : Type} (f : Z -> Z) (r : A) (w : world) (k : Z * Z * Z) :
  k <> (b, a, 0x01) -> regs (world_of (rmw f r w)) !! k = regs w !! k.
Proof.
  intros Hk. destruct (regs w !! (b, a, 0x01)) as [c|] eqn:H.
  - rewrite (rmw_run self f r c w H). simpl.
    apply lookup_insert_ne. congruence.
  - now rewrite (rmw_absent f r w H).
Qed.


Lemma comparator_mode_run (c : Z) (w : world) :
  regs w !! (b, a, 0x01) = Some c ->
  comparator_mode self w
  = Ok true (store (b, a, 0x01) (Z.land c 0xFD)
               (log (EvWriteByte b a 0x01 (Z.land c 0xFD))
                  (log (EvReadByte b a 0x01) w))).
Proof. exact (rmw_run self (fun c => Z.land c 0xFD) true c w). Qed.

Lemma interrupt_mode_run (c : Z) (w : world) :
  regs w !! (b, a, 0x01) = Some c ->
  interrupt_mode self w
  = Ok true (store (b, a, 0x01) (Z.lor c 0x02)
               (log (EvWriteByte b a 0x01 (Z.lor c 0x02))
                  (log (EvReadByte b a 0x01) w))).
Proof. exact (rmw_run self (fun c => Z.lor c 0x02) true c w). Qed.

(** On a byte, [c & 0xFD] clears bit 1 and keeps the others. *)
Lemma land_FD_bits (c i : Z) :
  0 <= c < 256 ->
  Z.testbit (Z.land c 0xFD) i = if i =? 1 then false else Z.testbit c i.
Proof.
  intros Hc. rewrite Z.land_spec.
  destruct (Z.eqb_spec i 1) as [->|Hne]; [apply andb_false_r|].
  destruct (Z_lt_le_dec i 0) as [Hneg|Hpos].
  - now rewrite !Z.testbit_neg_r by lia.
  - destruct (Z_lt_le_dec i 8) as [Hlt|Hge].
    + assert (i = 0 \/ i = 2 \/ i = 3 \/ i = 4 \/ i = 5 \/ i = 6 \/ i = 7)
        as Hcases by lia.
      destruct Hcases as [E|[E|[E|[E|[E|[E|E]]]]]]; rewrite E;
        apply andb_true_r.
    + now rewrite (byte_high_bits c i Hc Hge).
Qed.

(** [comparator_mode] reads CONFIG and writes it back with bit 1 cleared
    and every other bit as it was, returns [True], and a [getConf] that
    follows reads the written byte. *)
Theorem comparator_mode_bit1 (c : Z) (w : world) :
  0 <= c < 256 ->
  regs w !! (b, a, 0x01) = Some c ->
  exists (v : Z) (w' : world),
    comparator_mode self w = Ok true w'
    /\ trace w' = trace w ++ [EvReadByte b a 0x01; EvWriteByte b a 0x01 v]
    /\ Z.testbit v 1 = false
    /\ (forall i, i <> 1 -> Z.testbit v i = Z.testbit c i)
    /\ getConf self w' = Ok v (log (EvReadByte b a 0x01) w').
Proof.
  intros Hc H. eexists _, _. split; [exact (comparator_mode_run c w H)|].
  split; [apply rmw_trace|]. split; [|split].
  - exact (land_FD_bits c 1 Hc).
  - intros i Hi. rewrite (land_FD_bits c i Hc).
    destruct (Z.eqb_spec i 1); [contradiction | reflexivity].
  - apply getConf_run, rmw_readback.
Qed.

(** [interrupt_mode] reads CONFIG and writes it back with bit 1 set and
    every other bit as it was, returns [True], and a [getConf] that
    follows reads the written byte. *)
Theorem interrupt_mode_bit1 (c : Z) (w : world) :
  0 <= c < 256 ->
  regs w !! (b, a, 0x01) = Some c ->
  exists (v : Z) (w' : world),
    interrupt_mode self w = Ok true w'
    /\ trace w' = trace w ++ [EvReadByte b a 0x01; EvWriteByte b a 0x01 v]
    /\ 0 <= v < 256
    /\ Z.testbit v 1 = true
    /\ (forall i, i <> 1 -> Z.testbit v i = Z.testbit c i)
    /\ getConf self w' = Ok v (log (EvReadByte b a 0x01) w').
Proof.
  intros Hc H. eexists _, _. split; [exact (interrupt_mode_run c w H)|].
  split; [apply rmw_trace|]. split; [|split; [|split]].
  - apply lor_byte; [exact Hc | lia].
  - exact (lor_pow2_bits c 1 1 ltac:(lia)).
  - intros i Hi. transitivity (if i =? 1 then true else Z.testbit c i);
      [exact (lor_pow2_bits c 1 i ltac:(lia))|].
    destruct (Z.eqb_spec i 1); [contradiction | reflexivity].
  - apply getConf_run, rmw_readback.
Qed.

End ConfigurationHelpers.

Section ConfigurationInvariants.

Import smbus LM75.

Variable self : self_t.

Local Abbreviation b := (busno (bus self)).
Local Abbreviation a := (address self).



(** Whatever their outcome, the configuration helpers change no register
    other than the configuration register of their own sensor: the
    temperature, hysteresis and set-point registers, and the registers of
    other devices, are as they were. *)
Theorem helpers_only_touch_config :
  only_touches_config self (shutdown self)
  /\ only_touches_config self (wakeup self)
  /\ only_touches_config self (comparator_mode self)
  /\ only_touches_config self (interrupt_mode self)
  /\ (forall polarity, only_touches_config self (setPolarity self polarity))
  /\ (forall value, only_touches_config self (setFaultQueue self value)).
Proof.
  split; [|split; [|split; [|split; [|split]]]].
  - intros w k. exact (rmw_frame self (fun c => Z.lor c 0x01) true w k).
  - intros w k. exact (rmw_frame self (fun c => Z.land c 0xFE) true w k).
  - intros w k. exact (rmw_frame self (fun c => Z.land c 0xFD) true w k).
  - intros w k. exact (rmw_frame self (fun c => Z.lor c 0x02) true w k).
  - intros polarity w k.
    exact (rmw_frame self
             (fun c => if polarity =? 1 then Z.lor c 0x04
                       else Z.land c (Z.lnot 0x04)) tt w k).
  - intros value w k Hk. unfold setFaultQueue.
    destruct (negb (bool_decide (value ∈ [0; 1; 2; 3]))); [reflexivity|].
    exact (rmw_frame self (fun c => Z.lor c (Z.shiftl value 3)) true w k Hk).
Qed.

(** When the device does not answer, each helper raises [IOError] out of
    its read of CONFIG: that read is the only transaction requested, no
    write is attempted, and no register changes. *)
Theorem helpers_raise_on_absent_device (polarity value : Z) (w : world) :
  regs w !! (b, a, 0x01) = None ->
  0 <= value <= 3 ->
  let failed := log (EvReadByte b a 0x01) w in
  shutdown self w = Raise IOError failed
  /\ wakeup self w = Raise IOError failed
  /\ comparator_mode self w = Raise IOError failed
  /\ interrupt_mode self w = Raise IOError failed
  /\ setPolarity self polarity w = Raise IOError failed
  /\ setFaultQueue self value w = Raise IOError failed
  /\ trace failed = trace w ++ [EvReadByte b a 0x01]
  /\ regs failed = regs w.
Proof.
  intros H Hv failed.
  split; [exact (rmw_absent self (fun c => Z.lor c 0x01) true w H)|].
  split; [exact (rmw_absent self (fun c => Z.land c 0xFE) true w H)|].
  split; [exact (rmw_absent self (fun c => Z.land c 0xFD) true w H)|].
  split; [exact (rmw_absent self (fun c => Z.lor c 0x02) true w H)|].
  split; [exact (rmw_absent self
                   (fun c => if polarity =? 1 then Z.lor c 0x04
                             else Z.land c (Z.lnot 0x04)) tt w H)|].
  split; [|split; reflexivity].
  unfold setFaultQueue. rewrite bool_decide_eq_true_2 by (set_unfold; lia).
  exact (rmw_absent self (fun c => Z.lor c (Z.shiftl value 3)) true w H).
Qed.

End ConfigurationInvariants.

(** ** How the configuration helpers compose *)

Section HelperComposition.

Import smbus LM75.

Variable self : self_t.

Local Abbreviation b := (busno (bus self)).
Local Abbreviation a := (address self).

Lemma clear_after_set_bit0 (c : Z) :
  0 <= c < 256 -> Z.testbit c 0 = false -> Z.land (Z.lor c 0x01) 0xFE = c.
Proof.
  intros Hc H0. apply Z.bits_inj'. intros i Hi.
  rewrite (land_FE_bits (Z.lor c 1) i) by (apply lor_byte; lia).
  pose proof (lor_pow2_bits c 0 i ltac:(lia)) as E.
  change (2 ^ 0) with 1 in E. rewrite E.
  destruct (Z.eqb_spec i 0) as [->|Hne]; [now rewrite H0 | reflexivity].
Qed.

Lemma clear_after_set_bit1 (c : Z) :
  0 <= c < 256 -> Z.testbit c 1 = false -> Z.land (Z.lor c 0x02) 0xFD = c.
Proof.
  intros Hc H1. apply Z.bits_inj'. intros i Hi.
  rewrite (land_FD_bits (Z.lor c 2) i) by (apply lor_byte; lia).
  pose proof (lor_pow2_bits c 1 i ltac:(lia)) as E.
  change (2 ^ 1) with 2 in E. rewrite E.
  destruct (Z.eqb_spec i 1) as [->|Hne]; [now rewrite H1 | reflexivity].
Qed.

Lemma clear_after_set_bit2 (c : Z) :
  Z.testbit c 2 = false -> Z.land (Z.lor c 0x04) (Z.lnot 0x04) = c.
Proof.
  intros H2. apply Z.bits_inj'. intros i Hi.
  pose proof (land_lnot_pow2_bits (Z.lor c 4) 2 i ltac:(lia)) as E1.
  pose proof (lor_pow2_bits c 2 i ltac:(lia)) as E2.
  change (2 ^ 2) with 4 in E1, E2. rewrite E1, E2.
  destruct (Z.eqb_spec i 2) as [->|Hne]; [now rewrite H2 | reflexivity].
Qed.

(** The world after two read-modify-writes of CONFIG that end with the
    byte [c] the register started with: the registers are as at the
    start. *)
Lemma rmw_twice_restores (c v : Z) (w : world) :
  regs w !! (b, a, 0x01) = Some c ->
  <[(b, a, 0x01) := c]> (<[(b, a, 0x01) := v]> (regs w)) = regs w.
Proof. intros H. rewrite insert_insert_eq. now apply insert_id. Qed.

(** On an awake sensor (bit 0 of CONFIG clear), [shutdown] followed by
    [wakeup] leaves every register as it was before the two calls; the
    four transactions are read, write with bit 0 set, read, write of the
    original byte. *)
Theorem shutdown_then_wakeup (c : Z) (w : world) :
  0 <= c < 256 -> Z.testbit c 0 = false ->
  regs w !! (b, a, 0x01) = Some c ->
  exists w1 w2 : world,
    shutdown self w = Ok true w1
    /\ wakeup self w1 = Ok true w2
    /\ regs w2 = regs w
    /\ trace w2
       = trace w ++ [EvReadByte b a 0x01; EvWriteByte b a 0x01 (Z.lor c 0x01);
                     EvReadByte b a 0x01; EvWriteByte b a 0x01 c].
Proof.
  intros Hc H0 H. eexists _, _.
  split; [exact (shutdown_run self c w H)|].
  split; [exact (wakeup_run self (Z.lor c 0x01) _ (rmw_readback self _ _))|].
  rewrite (clear_after_set_bit0 c Hc H0). simpl.
  split; [now apply rmw_twice_restores | now rewrite <- !app_assoc].
Qed.

(** On a sensor in comparator mode (bit 1 of CONFIG clear),
    [interrupt_mode] followed by [comparator_mode] leaves every register
    as it was before the two calls. *)
Theorem interrupt_then_comparator_mode (c : Z) (w : world) :
  0 <= c < 256 -> Z.testbit c 1 = false ->
  regs w !! (b, a, 0x01) = Some c ->
  exists w1 w2 : world,
    interrupt_mode self w = Ok true w1
    /\ comparator_mode self w1 = Ok true w2
    /\ regs w2 = regs w
    /\ trace w2
       = trace w ++ [EvReadByte b a 0x01; EvWriteByte b a 0x01 (Z.lor c 0x02);
                     EvReadByte b a 0x01; EvWriteByte b a 0x01 c].
Proof.
  intros Hc H1 H. eexists _, _.
  split; [exact (interrupt_mode_run self c w H)|].
  split; [exact (comparator_mode_run self (Z.lor c 0x02) _
                   (rmw_readback self _ _))|].
  rewrite (clear_after_set_bit1 c Hc H1). simpl.
  split; [now apply rmw_twice_restores | now rewrite <- !app_assoc].
Qed.

(** On an active-low sensor (bit 2 of CONFIG clear), [setPolarity(1)]
    followed by [setPolarity] with any argument other than 1 leaves
    every register as it was before the two calls. *)
Theorem setPolarity_high_then_low (polarity c : Z) (w : world) :
  polarity <> 1 -> Z.testbit c 2 = false ->
  regs w !! (b, a, 0x01) = Some c ->
  exists w1 w2 : world,
    setPolarity self 1 w = Ok tt w1
    /\ setPolarity self polarity w1 = Ok tt w2
    /\ regs w2 = regs w
    /\ trace w2
       = trace w ++ [EvReadByte b a 0x01; EvWriteByte b a 0x01 (Z.lor c 0x04);
                     EvReadByte b a 0x01; EvWriteByte b a 0x01 c].
Proof.
  intros Hp H2 H. eexists _, _.
  split; [exact (setPolarity_run self 1 c w H)|].
  split; [exact (setPolarity_run self polarity (Z.lor c 0x04) _
                   (rmw_readback self _ _))|].
  apply Z.eqb_neq in Hp. rewrite Hp. change (1 =? 1) with true. cbv iota.
  rewrite (clear_after_set_bit2 c H2). simpl.
  split; [now apply rmw_twice_restores | now rewrite <- !app_assoc].
Qed.

Lemma fault_queue_field_range (c : Z) : 0 <= fault_queue_field c <= 3.
Proof.
  unfold fault_queue_field.
  pose proof (Z.land_ones (Z.shiftr c 3) 2 ltac:(lia)) as E.
  change (Z.ones 2) with 3 in E. rewrite E.
  pose proof (Z.mod_pos_bound (Z.shiftr c 3) (2 ^ 2) eq_refl) as Hb.
  change (2 ^ 2) with 4 in *. lia.
Qed.

Lemma lor_depths (f d1 d2 : Z) :
  0 <= f <= 3 -> 0 <= d1 <= 3 -> 0 <= d2 <= 3 ->
  d1 <= Z.lor (Z.lor f d1) d2 <= 3 /\ d2 <= Z.lor (Z.lor f d1) d2.
Proof.
  intros Hf H1 H2.
  assert (f = 0 \/ f = 1 \/ f = 2 \/ f = 3) as Hfc by lia.
  assert (d1 = 0 \/ d1 = 1 \/ d1 = 2 \/ d1 = 3) as H1c by lia.
  assert (d2 = 0 \/ d2 = 1 \/ d2 = 2 \/ d2 = 3) as H2c by lia.
  destruct Hfc as [Ef|[Ef|[Ef|Ef]]]; destruct H1c as [E1|[E1|[E1|E1]]];
    destruct H2c as [E2|[E2|[E2|E2]]]; rewrite Ef, E1, E2;
    vm_compute; repeat split; discriminate.
Qed.

(** Two valid [setFaultQueue] calls in a row: both return [True], and
    the fault queue field ends as the bitwise or of its initial content
    and both depths.  It is never below either depth, so a second call
    cannot lower what the first one set ([setFaultQueue(0)] changes
    nothing). *)
Theorem setFaultQueue_twice (d1 d2 c : Z) (w : world) :
  0 <= d1 <= 3 -> 0 <= d2 <= 3 ->
  regs w !! (b, a, 0x01) = Some c ->
  exists (v : Z) (w1 w2 : world),
    setFaultQueue self d1 w = Ok true w1
    /\ setFaultQueue self d2 w1 = Ok true w2
    /\ regs w2 !! (b, a, 0x01) = Some v
    /\ fault_queue_field v = Z.lor (Z.lor (fault_queue_field c) d1) d2
    /\ d1 <= fault_queue_field v <= 3
    /\ d2 <= fault_queue_field v.
Proof.
  intros H1 H2 H. eexists _, _, _.
  split; [exact (setFaultQueue_valid_run self d1 c w H1 H)|].
  split; [exact (setFaultQueue_valid_run self d2 _ _ H2
                   (rmw_readback self _ _))|].
  split; [apply rmw_readback|].
  rewrite !fault_queue_field_lor by assumption.
  split; [reflexivity|].
  apply lor_depths; [apply fault_queue_field_range | assumption..].
Qed.

End HelperComposition.

(** ** Register writes and reads *)

Section RegisterAccess.

Import smbus LM75.

Variable self : self_t.

Local Abbreviation b := (busno (bus self)).
Local Abbreviation a := (address self).

Lemma setThys_run (thys : Z) (w : world) :
  is_Some (regs w !! (b, a, 0x02)) ->
  setThys self thys w
  = Ok tt (store (b, a, 0x02) thys (log (EvWriteWord b a 0x02 thys) w)).
Proof.
  intros [c H]. unfold setThys, write_word_data, bus_write.
  unfold _THYST. now rewrite H.
Qed.

Lemma setTset_run (tos : Z) (w : world) :
  is_Some (regs w !! (b, a, 0x03)) ->
  setTset self tos w
  = Ok tt (store (b, a, 0x03) tos (log (EvWriteWord b a 0x03 tos) w)).
Proof.
  intros [c H]. unfold setTset, write_word_data, bus_write.
  unfold _TSET. now rewrite H.
Qed.

(** A raw word of at most 127 decodes to itself. *)
Lemma getTemp_value_small (raw : Z) :
  0 <= raw <= 127 -> (getTemp_value raw == inject_Z raw)%Q.
Proof.
  intros Hr. rewrite getTemp_value_halves.
  assert (Z.land raw 0x007F = raw) as ->.
  { pose proof (Z.land_ones raw 7 ltac:(lia)) as E.
    change (Z.ones 7) with 127 in E. rewrite E. apply Z.mod_small.
    change (2 ^ 7) with 128. lia. }
  rewrite (byte_high_bits raw 15) by lia.
  unfold Qeq. simpl. lia.
Qed.

(** [setThys] passes its argument to the bus unchanged, in one word
    write to register 0x02, and the [getThys] that follows returns the
    decoding of that word: bits 0-6 plus half of bit 15.  A word from 0
    to 127 is read back as that number of degrees. *)
Theorem setThys_then_getThys (raw : Z) (w : world) :
  is_Some (regs w !! (b, a, 0x02)) ->
  exists (v : Q) (w1 w2 : world),
    setThys self raw w = Ok tt w1
    /\ trace w1 = trace w ++ [EvWriteWord b a 0x02 raw]
    /\ getThys self w1 = Ok v w2
    /\ trace w2 = trace w1 ++ [EvReadWord b a 0x02]
    /\ (v == (2 * Z.land raw 0x007F + Z.b2z (Z.testbit raw 15)) # 2)%Q
    /\ (0 <= raw <= 127 -> (v == inject_Z raw)%Q).
Proof.
  intros H. eexists _, _, _.
  split; [exact (setThys_run raw w H)|]. split; [reflexivity|].
  split; [apply getThys_run; apply lookup_insert_eq|].
  split; [reflexivity|].
  split; [exact (getTemp_value_halves raw) | exact (getTemp_value_small raw)].
Qed.

(** The same for [setTset] and [getTset], on register 0x03. *)
Theorem setTset_then_getTset (raw : Z) (w : world) :
  is_Some (regs w !! (b, a, 0x03)) ->
  exists (v : Q) (w1 w2 : world),
    setTset self raw w = Ok tt w1
    /\ trace w1 = trace w ++ [EvWriteWord b a 0x03 raw]
    /\ getTset self w1 = Ok v w2
    /\ trace w2 = trace w1 ++ [EvReadWord b a 0x03]
    /\ (v == (2 * Z.land raw 0x007F + Z.b2z (Z.testbit raw 15)) # 2)%Q
    /\ (0 <= raw <= 127 -> (v == inject_Z raw)%Q).
Proof.
  intros H. eexists _, _, _.
  split; [exact (setTset_run raw w H)|]. split; [reflexivity|].
  split; [apply getTset_run; apply lookup_insert_eq|].
  split; [reflexivity|].
  split; [exact (getTemp_value_halves raw) | exact (getTemp_value_small raw)].
Qed.


(** The four getters never write: whether they return or raise, the
    registers are as before and the one transaction requested is the
    read of their own register (0x00, 0x01, 0x02, 0x03).  Nothing is
    cached between calls. *)
Theorem getters_read_only (w : world) :
  (regs (world_of (getTemp self w)) = regs w
   /\ trace (world_of (getTemp self w)) = trace w ++ [EvReadWord b a 0x00])
  /\ (regs (world_of (getConf self w)) = regs w
      /\ trace (world_of (getConf self w)) = trace w ++ [EvReadByte b a 0x01])
  /\ (regs (world_of (getThys self w)) = regs w
      /\ trace (world_of (getThys self w)) = trace w ++ [EvReadWord b a 0x02])
  /\ (regs (world_of (getTset self w)) = regs w
      /\ trace (world_of (getTset self w)) = trace w ++ [EvReadWord b a 0x03]).
Proof.
  unfold getTemp, getConf, getThys, getTset, read_word_data, read_byte_data.
  unfold _CONFIG, _THYST, _TSET, bus_read, mbind, M_bind.
  destruct (regs w !! (b, a, 0)), (regs w !! (b, a, 1)),
           (regs w !! (b, a, 2)), (regs w !! (b, a, 3));
    repeat split; reflexivity.
Qed.

End RegisterAccess.

(** ** Construction, beyond the claims *)

Section ConstructionOutcomes.

Import smbus LM75.

Lemma present_intro (b a : Z) (w : world) :
  is_Some (regs w !! (b, a, 0x00)) -> is_Some (regs w !! (b, a, 0x01)) ->
  is_Some (regs w !! (b, a, 0x02)) -> is_Some (regs w !! (b, a, 0x03)) ->
  present b a w = true.
Proof.
  intros [c0 H0] [c1 H1] [c2 H2] [c3 H3]. unfold present. simpl.
  unfold answers. now rewrite H0, H1, H2, H3.
Qed.

Variables add bus : Z.

(** Construction never reads, and a failed write stops it without undoing
    the writes already made: if CONFIG does not answer, [IOError] is raised
    out of the first write; if THYST does not, CONFIG has been set to 0x00
    and the set-point write is not attempted; if TSET does not, CONFIG
    and THYST have been written. *)
Theorem init_stops_at_first_failed_write (w : world) :
  (regs w !! (bus, add, 0x01) = None ->
   init add bus w = Raise IOError (log (EvWriteByte bus add 0x01 0x00) w))
  /\ (is_Some (regs w !! (bus, add, 0x01)) ->
      regs w !! (bus, add, 0x02) = None ->
      init add bus w
      = Raise IOError
          (log (EvWriteWord bus add 0x02 0x004B)
             (store (bus, add, 0x01) 0x00
                (log (EvWriteByte bus add 0x01 0x00) w))))
  /\ (is_Some (regs w !! (bus, add, 0x01)) ->
      is_Some (regs w !! (bus, add, 0x02)) ->
      regs w !! (bus, add, 0x03) = None ->
      init add bus w
      = Raise IOError
          (log (EvWriteWord bus add 0x03 0x0050)
             (store (bus, add, 0x02) 0x004B
                (log (EvWriteWord bus add 0x02 0x004B)
                   (store (bus, add, 0x01) 0x00
                      (log (EvWriteByte bus add 0x01 0x00) w)))))).
Proof.
  unfold init, setConf, setThys, setTset, write_byte_data, write_word_data.
  unfold _CONFIG, _THYST, _TSET, mbind, M_bind, bus_write. simpl.
  split; [|split].
  - intros H1. now rewrite H1.
  - intros [c1 H1] H2. rewrite H1. simpl.
    rewrite lookup_insert_ne by (intros [=]). now rewrite H2.
  - intros [c1 H1] [c2 H2] H3. rewrite H1. simpl.
    rewrite lookup_insert_ne by (intros [=]). rewrite H2. simpl.
    rewrite !lookup_insert_ne by (intros [=]). now rewrite H3.
Qed.

(** Construction does not depend on what the registers held: on a device
    that answers it leaves CONFIG = 0x00, THYST = 0x004B and
    TSET = 0x0050, every other register (TEMP, other devices) as it was,
    [getConf] then returns 0, and constructing a second object for the
    same device changes no register. *)
Theorem init_resets_registers (w : world) :
  present bus add w = true ->
  exists (self : self_t) (w' : world),
    init add bus w = Ok self w'
    /\ regs w'
       = <[(bus, add, 0x03) := 0x0050]>
           (<[(bus, add, 0x02) := 0x004B]>
              (<[(bus, add, 0x01) := 0x00]> (regs w)))
    /\ (forall k, k <> (bus, add, 0x01) -> k <> (bus, add, 0x02) ->
                  k <> (bus, add, 0x03) -> regs w' !! k = regs w !! k)
    /\ getConf self w' = Ok 0x00 (log (EvReadByte bus add 0x01) w')
    /\ exists w'' : world,
        init add bus w' = Ok self w'' /\ regs w'' = regs w'.
Proof.
  intros Hp. destruct (constructed_regs add bus w) as (H1 & H2 & H3).
  assert (present bus add (constructed add bus w) = true) as Hp'.
  { apply present_intro; [|rewrite H1|rewrite H2|rewrite H3]; eauto.
    simpl. rewrite !lookup_insert_ne by (intros [=]).
    exact (present_lookup bus add 0 w Hp ltac:(lia)). }
  exists (mkLM75 (mkSMBus bus) add), (constructed add bus w).
  split; [exact (init_run add bus w Hp)|]. split; [reflexivity|].
  split; [|split].
  - intros k K1 K2 K3. simpl.
    now rewrite !lookup_insert_ne by congruence.
  - exact (getConf_run (mkLM75 (mkSMBus bus) add) 0x00 _ H1).
  - exists (constructed add bus (constructed add bus w)).
    split; [exact (init_run add bus _ Hp')|].
    simpl. apply map_eq. intros k.
    destruct (decide (k = (bus, add, 3))) as [->|K3];
      [|destruct (decide (k = (bus, add, 2))) as [->|K2];
        [|destruct (decide (k = (bus, add, 1))) as [->|K1]]];
      repeat first [ rewrite lookup_insert_eq
                   | rewrite lookup_insert_ne by congruence ];
      reflexivity.
Qed.

(** On a freshly constructed sensor the fault queue field is 0, so the
    first valid [setFaultQueue(depth)] does set it: the byte written, and
    read back by [getConf], is [depth << 3], whose bits 3-4 are the depth
    and whose other bits are clear. *)
Theorem setFaultQueue_after_init (depth : Z) (w : world) :
  present bus add w = true ->
  0 <= depth <= 3 ->
  exists (self : self_t) (w0 w1 : world),
    init add bus w = Ok self w0
    /\ setFaultQueue self depth w0 = Ok true w1
    /\ trace w1
       = trace w0 ++ [EvReadByte bus add 0x01;
                      EvWriteByte bus add 0x01 (Z.shiftl depth 3)]
    /\ getConf self w1
       = Ok (Z.shiftl depth 3) (log (EvReadByte bus add 0x01) w1)
    /\ fault_queue_field (Z.shiftl depth 3) = depth.
Proof.
  intros Hp Hd. destruct (constructed_regs add bus w) as (H1 & _ & _).
  exists (mkLM75 (mkSMBus bus) add), (constructed add bus w).
  eexists. split; [exact (init_run add bus w Hp)|].
  split; [exact (setFaultQueue_valid_run (mkLM75 (mkSMBus bus) add)
                   depth 0x00 _ Hd H1)|].
  change (Z.lor 0 (Z.shiftl depth 3)) with (Z.shiftl depth 3).
  split; [apply (rmw_trace (mkLM75 (mkSMBus bus) add))|].
  split; [apply (getConf_run (mkLM75 (mkSMBus bus) add)), rmw_readback|].
  rewrite <- (Z.lor_0_l (Z.shiftl depth 3)).
  rewrite fault_queue_field_lor by exact Hd. reflexivity.
Qed.

End ConstructionOutcomes.

(** ** What the decoding depends on *)

Section DecodingInputs.

Import smbus LM75.

(** The value decoded by the three getters depends only on bits 0-6 and
    bit 15 of the raw word: two words that agree there decode to the same
    value, whatever their bits 7 to 14 are.  In particular flipping the
    sign flag (bit 7) does not change the result. *)
Theorem decode_ignores_bits_7_to_14 (w w' : Z) :
  Z.land w 0x007F = Z.land w' 0x007F ->
  Z.testbit w 15 = Z.testbit w' 15 ->
  getTemp_value w = getTemp_value w'
  /\ getThys_value w = getThys_value w'
  /\ getTset_value w = getTset_value w'
  /\ getTemp_value (Z.lxor w 0x0080) = getTemp_value w.
Proof.
  intros Hm Hd.
  assert (forall u v, Z.land u 0x007F = Z.land v 0x007F ->
                      Z.testbit u 15 = Z.testbit v 15 ->
                      getTemp_value u = getTemp_value v) as Hsame.
  { intros u v Hm' Hd'. unfold getTemp_value. cbv zeta.
    now rewrite !sign_term, !dec_bit, Hm', Hd'. }
  split; [exact (Hsame w w' Hm Hd)|].
  split; [exact (Hsame w w' Hm Hd)|].
  split; [exact (Hsame w w' Hm Hd)|].
  apply Hsame.
  - apply Z.bits_inj'. intros i Hi. rewrite !Z.land_spec, Z.lxor_spec.
    pose proof (Z.pow2_bits_eqb 7 i ltac:(lia)) as E.
    change (2 ^ 7) with 128 in E. rewrite E.
    destruct (Z.eqb_spec 7 i) as [<-|Hne];
      [now rewrite !andb_false_r | now rewrite xorb_false_r].
  - rewrite Z.lxor_spec. change (Z.testbit 0x0080 15) with false.
    apply xorb_false_r.
Qed.

Lemma decode_ignores_bits_7_to_14_witness :
  Z.land 0x8019 0x007F = Z.land 0xFF99 0x007F
  /\ Z.testbit 0x8019 15 = Z.testbit 0xFF99 15
  /\ getTemp_value 0x8019 = getTemp_value 0xFF99.
Proof.
  split; [reflexivity|]. split; [reflexivity|].
  exact (proj1 (decode_ignores_bits_7_to_14 0x8019 0xFF99 eq_refl eq_refl)).
Defined.

End DecodingInputs.

(** ** The demonstration routine *)

Ltac bind_step := unfold mbind at 1, M_bind at 1.

Ltac lookups :=
  cbn [regs constructed store log];
  repeat first [ rewrite lookup_insert_eq
               | rewrite lookup_insert_ne by (intros [=]) ];
  first [ assumption | reflexivity ].

Section Demonstration.

Import smbus LM75.

(** A loop that sleeps, reads the temperature and prints it, run over a
    list: one read and one line per element. *)
Lemma sampling_loop {A : Type} (self : self_t) (msg : string) (raw : Z)
    (l : list A) (w : world) :
  regs w !! (busno (bus self), address self, 0x00) = Some raw ->
  for_in l (fun i =>
    sleep 1;;
    t ← getTemp self;
    print (msg +:+ str t)) w
  = Ok tt
      (World (regs w)
         (trace w
          ++ replicate (length l)
               (EvReadWord (busno (bus self)) (address self) 0x00))
         (stdout w
          ++ replicate (length l) (msg +:+ str (getTemp_value raw)))).
Proof.
  revert w. induction l as [|i l IH]; intros w H.
  - simpl. rewrite !app_nil_r. now destruct w.
  - cbn [for_in]. bind_step. bind_step.
    unfold sleep at 1, mret at 1, M_ret at 1. bind_step.
    rewrite (getTemp_run self raw w H). unfold print at 1.
    rewrite IH by exact H. simpl.
    now rewrite <- !app_assoc.
Qed.

(** On a bus 1 where an LM75 answers at 0x48 with [raw] in its
    temperature register, [testSensor] runs to its end.  It requests 50
    bus transactions: the three writes of the construction, one read of
    each of TEMP, THYST and TSET, the read and write of [shutdown]
    (CONFIG becomes 0x01), 20 reads of TEMP, the read and write of
    [wakeup] (CONFIG back to 0x00), and 20 more reads of TEMP.  It prints
    46 lines, with the defaults shown as 75.0 and 80.0, and leaves the
    registers as the construction set them. *)
Theorem testSensor_run (raw : Z) (w : world) :
  present 1 0x48 w = true ->
  regs w !! (1, 0x48, 0x00) = Some raw ->
  exists w' : world,
    testSensor w = Ok tt w'
    /\ regs w' = regs (constructed 0x48 1 w)
    /\ trace w'
       = trace w
         ++ [EvWriteByte 1 0x48 0x01 0x00; EvWriteWord 1 0x48 0x02 0x004B;
             EvWriteWord 1 0x48 0x03 0x0050;
             EvReadWord 1 0x48 0x00; EvReadWord 1 0x48 0x02;
             EvReadWord 1 0x48 0x03;
             EvReadByte 1 0x48 0x01; EvWriteByte 1 0x48 0x01 0x01]
         ++ replicate 20 (EvReadWord 1 0x48 0x00)
         ++ [EvReadByte 1 0x48 0x01; EvWriteByte 1 0x48 0x01 0x00]
         ++ replicate 20 (EvReadWord 1 0x48 0x00)
    /\ stdout w'
       = stdout w
         ++ ["Accessing LM75 at address ";
             "Temperature: " +:+ str (getTemp_value raw);
             "Thys: 75.0"; "Tset: 80.0"; "Shutting down sensor"]
         ++ replicate 20
              ("Temperature while Shutdown: " +:+ str (getTemp_value raw))
         ++ ["Waking up sensor now"]
         ++ replicate 20
              ("Temperature while wakeup: " +:+ str (getTemp_value raw)).
Proof.
  intros Hp Hraw.
  destruct (constructed_regs 0x48 1 w) as (H1 & H2 & H3).
  set (S := mkLM75 (mkSMBus 1) 0x48).
  eexists. split.
  - unfold testSensor. bind_step. rewrite (init_run 0x48 1 w Hp).
    bind_step. unfold print at 1.
    bind_step. rewrite (getTemp_run S raw) by lookups.
    bind_step. unfold print at 1.
    bind_step. rewrite (getThys_run S 0x004B) by lookups.
    bind_step. unfold print at 1.
    bind_step. rewrite (getTset_run S 0x0050) by lookups.
    bind_step. unfold print at 1.
    bind_step. unfold sleep at 1, mret at 1, M_ret at 1.
    bind_step. unfold print at 1.
    bind_step. rewrite (shutdown_run S 0x00) by lookups.
    bind_step. rewrite (sampling_loop S _ raw) by lookups.
    bind_step. unfold print at 1.
    bind_step. rewrite (wakeup_run S 0x01) by lookups.
    rewrite (sampling_loop S _ raw) by lookups.
    reflexivity.
  - cbn [regs trace stdout store log constructed].
    change (length (range 0 20)) with 20%nat.
    change (Z.land 1 254) with 0. change (Z.lor 0 1) with 1.
    change ("Thys: " +:+ str (getThys_value 75)) with "Thys: 75.0"%string.
    change ("Tset: " +:+ str (getTset_value 80)) with "Tset: 80.0"%string.
    split; [|split].
    + rewrite insert_insert_eq. apply insert_id. exact H1.
    + now rewrite <- !app_assoc.
    + now rewrite <- !app_assoc.
Qed.

End Demonstration.

(** ** The theorems above on the bench *)

Section BenchChecks.

Import smbus LM75.

Lemma comparator_mode_bit1_witness :
  exists (v : Z) (w' : world),
    comparator_mode sensor (bench 0x0019 0x1F 0x004B 0x0050) = Ok true w'
    /\ trace w' = [EvReadByte 1 0x48 0x01; EvWriteByte 1 0x48 0x01 v]
    /\ Z.testbit v 1 = false
    /\ (forall i, i <> 1 -> Z.testbit v i = Z.testbit 0x1F i)
    /\ getConf sensor w' = Ok v (log (EvReadByte 1 0x48 0x01) w').
Proof.
  assert (0 <= 0x1F < 256) as Hc by lia.
  exact (comparator_mode_bit1 sensor 0x1F
           (bench 0x0019 0x1F 0x004B 0x0050) Hc eq_refl).
Defined.

Lemma interrupt_mode_bit1_witness :
  exists (v : Z) (w' : world),
    interrupt_mode sensor (bench 0x0019 0x08 0x004B 0x0050) = Ok true w'
    /\ trace w' = [EvReadByte 1 0x48 0x01; EvWriteByte 1 0x48 0x01 v]
    /\ 0 <= v < 256
    /\ Z.testbit v 1 = true
    /\ (forall i, i <> 1 -> Z.testbit v i = Z.testbit 0x08 i)
    /\ getConf sensor w' = Ok v (log (EvReadByte 1 0x48 0x01) w').
Proof.
  assert (0 <= 0x08 < 256) as Hc by lia.
  exact (interrupt_mode_bit1 sensor 0x08
           (bench 0x0019 0x08 0x004B 0x0050) Hc eq_refl).
Defined.


Lemma setFaultQueue_after_init_witness :
  exists (self : self_t) (w0 w1 : world),
    init 0x48 1 (bench 0x0019 0x1F 0x0000 0x0000) = Ok self w0
    /\ setFaultQueue self 3 w0 = Ok true w1
    /\ trace w1
       = trace w0 ++ [EvReadByte 1 0x48 0x01;
                      EvWriteByte 1 0x48 0x01 (Z.shiftl 3 3)]
    /\ getConf self w1 = Ok (Z.shiftl 3 3) (log (EvReadByte 1 0x48 0x01) w1)
    /\ fault_queue_field (Z.shiftl 3 3) = 3.
Proof.
  assert (0 <= 3 <= 3) as Hd by lia.
  exact (setFaultQueue_after_init 0x48 1 3
           (bench 0x0019 0x1F 0x0000 0x0000) eq_refl Hd).
Defined.

Lemma setFaultQueue_twice_witness :
  exists (v : Z) (w1 w2 : world),
    setFaultQueue sensor 2 (bench 0x0019 0x00 0x004B 0x0050) = Ok true w1
    /\ setFaultQueue sensor 1 w1 = Ok true w2
    /\ regs w2 !! (1, 0x48, 0x01) = Some v
    /\ fault_queue_field v = Z.lor (Z.lor (fault_queue_field 0x00) 2) 1
    /\ 2 <= fault_queue_field v <= 3
    /\ 1 <= fault_queue_field v.
Proof.
  assert (0 <= 2 <= 3) as H1 by lia.
  assert (0 <= 1 <= 3) as H2 by lia.
  exact (setFaultQueue_twice sensor 2 1 0x00
           (bench 0x0019 0x00 0x004B 0x0050) H1 H2 eq_refl).
Defined.

Lemma shutdown_then_wakeup_witness :
  exists w1 w2 : world,
    shutdown sensor (bench 0x0019 0x1E 0x004B 0x0050) = Ok true w1
    /\ wakeup sensor w1 = Ok true w2
    /\ regs w2 = regs (bench 0x0019 0x1E 0x004B 0x0050)
    /\ trace w2
       = [EvReadByte 1 0x48 0x01; EvWriteByte 1 0x48 0x01 (Z.lor 0x1E 0x01);
          EvReadByte 1 0x48 0x01; EvWriteByte 1 0x48 0x01 0x1E].
Proof.
  assert (0 <= 0x1E < 256) as Hc by lia.
  exact (shutdown_then_wakeup sensor 0x1E
           (bench 0x0019 0x1E 0x004B 0x0050) Hc eq_refl eq_refl).
Defined.

Lemma interrupt_then_comparator_mode_witness :
  exists w1 w2 : world,
    interrupt_mode sensor (bench 0x0019 0x1D 0x004B 0x0050) = Ok true w1
    /\ comparator_mode sensor w1 = Ok true w2
    /\ regs w2 = regs (bench 0x0019 0x1D 0x004B 0x0050)
    /\ trace w2
       = [EvReadByte 1 0x48 0x01; EvWriteByte 1 0x48 0x01 (Z.lor 0x1D 0x02);
          EvReadByte 1 0x48 0x01; EvWriteByte 1 0x48 0x01 0x1D].
Proof.
  assert (0 <= 0x1D < 256) as Hc by lia.
  exact (interrupt_then_comparator_mode sensor 0x1D
           (bench 0x0019 0x1D 0x004B 0x0050) Hc eq_refl eq_refl).
Defined.

Lemma setPolarity_high_then_low_witness :
  exists w1 w2 : world,
    setPolarity sensor 1 (bench 0x0019 0x1B 0x004B 0x0050) = Ok tt w1
    /\ setPolarity sensor 0 w1 = Ok tt w2
    /\ regs w2 = regs (bench 0x0019 0x1B 0x004B 0x0050)
    /\ trace w2
       = [EvReadByte 1 0x48 0x01; EvWriteByte 1 0x48 0x01 (Z.lor 0x1B 0x04);
          EvReadByte 1 0x48 0x01; EvWriteByte 1 0x48 0x01 0x1B].
Proof.
  assert (0 <> 1) as Hp by lia.
  exact (setPolarity_high_then_low sensor 0 0x1B
           (bench 0x0019 0x1B 0x004B 0x0050) Hp eq_refl eq_refl).
Defined.


Lemma helpers_only_touch_config_witness :
  (1, 0x48, 0x02) <> (1, 0x48, 0x01)
  /\ regs (world_of (shutdown sensor (bench 0x0019 0x1F 0x004B 0x0050)))
     !! (1, 0x48, 0x02)
     = regs (bench 0x0019 0x1F 0x004B 0x0050) !! (1, 0x48, 0x02).
Proof.
  assert ((1, 0x48, 0x02) <> (1, 0x48, 0x01)) as Hk by discriminate.
  split; [exact Hk|].
  exact (proj1 (helpers_only_touch_config sensor) _ _ Hk).
Defined.

Lemma helpers_raise_on_absent_device_witness :
  regs (bench 0x0019 0x1F 0x004B 0x0050) !! (1, 0x49, 0x01) = None
  /\ shutdown absent_sensor (bench 0x0019 0x1F 0x004B 0x0050)
     = Raise IOError
         (log (EvReadByte 1 0x49 0x01) (bench 0x0019 0x1F 0x004B 0x0050)).
Proof.
  assert (0 <= 2 <= 3) as Hv by lia.
  split; [reflexivity|].
  exact (proj1 (helpers_raise_on_absent_device absent_sensor 1 2
                  (bench 0x0019 0x1F 0x004B 0x0050) eq_refl Hv)).
Defined.

Lemma init_stops_at_first_failed_write_witness :
  regs (bench 0x0019 0x1F 0x004B 0x0050) !! (1, 0x49, 0x01) = None
  /\ init 0x49 1 (bench 0x0019 0x1F 0x004B 0x0050)
     = Raise IOError
         (log (EvWriteByte 1 0x49 0x01 0x00)
            (bench 0x0019 0x1F 0x004B 0x0050)).
Proof.
  split; [reflexivity|].
  exact (proj1 (init_stops_at_first_failed_write 0x49 1
                  (bench 0x0019 0x1F 0x004B 0x0050)) eq_refl).
Defined.

Lemma init_resets_registers_witness :
  present 1 0x48 (bench 0x0019 0x1F 0x0000 0x0000) = true
  /\ exists (self : self_t) (w' : world),
      init 0x48 1 (bench 0x0019 0x1F 0x0000 0x0000) = Ok self w'
      /\ getConf self w' = Ok 0x00 (log (EvReadByte 1 0x48 0x01) w').
Proof.
  split; [reflexivity|].
  destruct (init_resets_registers 0x48 1
              (bench 0x0019 0x1F 0x0000 0x0000) eq_refl)
    as (self & w' & Hrun & _ & _ & Hconf & _).
  exists self, w'. split; [exact Hrun | exact Hconf].
Defined.

Lemma setThys_then_getThys_witness :
  exists (v : Q) (w1 w2 : world),
    setThys sensor 0x8019 (bench 0x0019 0x00 0x004B 0x0050) = Ok tt w1
    /\ trace w1 = [EvWriteWord 1 0x48 0x02 0x8019]
    /\ getThys sensor w1 = Ok v w2
    /\ trace w2 = trace w1 ++ [EvReadWord 1 0x48 0x02]
    /\ (v == (2 * Z.land 0x8019 0x007F + Z.b2z (Z.testbit 0x8019 15)) # 2)%Q
    /\ (0 <= 0x8019 <= 127 -> (v == inject_Z 0x8019)%Q).
Proof.
  exact (setThys_then_getThys sensor 0x8019
           (bench 0x0019 0x00 0x004B 0x0050) (ex_intro _ 0x004B eq_refl)).
Defined.

Lemma setTset_then_getTset_witness :
  exists (v : Q) (w1 w2 : world),
    setTset sensor 0x0055 (bench 0x0019 0x00 0x004B 0x0050) = Ok tt w1
    /\ trace w1 = [EvWriteWord 1 0x48 0x03 0x0055]
    /\ getTset sensor w1 = Ok v w2
    /\ trace w2 = trace w1 ++ [EvReadWord 1 0x48 0x03]
    /\ (v == (2 * Z.land 0x0055 0x007F + Z.b2z (Z.testbit 0x0055 15)) # 2)%Q
    /\ (0 <= 0x0055 <= 127 -> (v == inject_Z 0x0055)%Q).
Proof.
  exact (setTset_then_getTset sensor 0x0055
           (bench 0x0019 0x00 0x004B 0x0050) (ex_intro _ 0x0050 eq_refl)).
Defined.


Lemma testSensor_run_witness :
  present 1 0x48 (bench 0x8019 0x1F 0x0000 0x0000) = true
  /\ exists w' : world,
      testSensor (bench 0x8019 0x1F 0x0000 0x0000) = Ok tt w'
      /\ regs w' = regs (constructed 0x48 1 (bench 0x8019 0x1F 0x0000 0x0000)).
Proof.
  split; [reflexivity|].
  destruct (testSensor_run 0x8019 (bench 0x8019 0x1F 0x0000 0x0000)
              eq_refl eq_refl) as (w' & Hrun & Hregs & _).
  exists w'. split; [exact Hrun | exact Hregs].
Defined.

End BenchChecks.
